(** * The SDK proxy's body padding, signing and session store

    A shallow embedding of [apps/sdk-proxy/app/body_padding.py] and of the
    [SessionStore] of [apps/sdk-proxy/app/session_store.py], with the
    properties the specification states about them.

    Python dictionaries are finite maps with string keys, JSON values are
    an inductive type, exceptions are an error result, and the functions of
    the [accumulate_client.convenience] module that the patch calls but
    does not define are the fields of an interface. *)

From Stdlib Require Import ZArith Lia DecimalString.
From Stdlib.Strings Require Import Byte Ascii String.
From stdpp Require Import gmap strings list.

Local Open Scope string_scope.
Local Open Scope Z_scope.
Local Open Scope list_scope.

Abbreviation bytes := (list byte).

(** ** Python values *)

(** The JSON values a request body is made of.  Floating-point numbers are
    left out of the model. *)
#[local] Unset Elimination Schemes.
Inductive pyval :=
| PNone
| PBool (b : bool)
| PInt (z : Z)
| PStr (s : string)
| PList (l : list pyval)
| PDict (d : gmap string pyval).
#[local] Set Elimination Schemes.

Abbreviation pydict := (gmap string pyval).

Inductive exn := TypeError | ValueError | AttributeError | SdkError.

(** A call either returns or raises. *)
Inductive result (A : Type) :=
| Ok (a : A)
| Raise (e : exn).
Arguments Ok {A} a.
Arguments Raise {A} e.

Definition bind {A B} (m : result A) (k : A -> result B) : result B :=
  match m with
  | Ok a => k a
  | Raise e => Raise e
  end.

Notation "'do' x <- m ; k" := (bind m (fun x => k))
  (at level 10, x name, m at level 100, k at level 200).

(** [bool(v)]: Python's truth value. *)
Definition truthy (v : pyval) : bool :=
  match v with
  | PNone => false
  | PBool b => b
  | PInt z => negb (z =? 0)%Z
  | PStr s => match s with EmptyString => false | String _ _ => true end
  | PList l => match l with [] => false | _ :: _ => true end
  | PDict d => negb (Nat.eqb (size d) 0)
  end.

(** [d.get(k, dflt)] and [d.get(k)]. *)
Definition get (d : pydict) (k : string) (dflt : pyval) : pyval :=
  default dflt (d !! k).

Definition get_none (d : pydict) (k : string) : pyval := get d k PNone.

(** [v == s] for a string literal [s]. *)
Definition str_eq (v : pyval) (s : string) : bool :=
  match v with
  | PStr t => String.eqb t s
  | _ => false
  end.

(** [v.get(...)] needs a dict: any other value has no such attribute. *)
Definition as_dict (v : pyval) : result pydict :=
  match v with
  | PDict d => Ok d
  | _ => Raise AttributeError
  end.

(** The SDK's string writer encodes its argument with [.encode("utf-8")],
    which only a [str] has. *)
Definition as_str (v : pyval) : result string :=
  match v with
  | PStr s => Ok s
  | _ => Raise AttributeError
  end.

(** The SDK's varint writer is given an integer; [bool] is a subclass of
    [int] in Python. *)
Definition as_int (v : pyval) : result Z :=
  match v with
  | PInt z => Ok z
  | PBool b => Ok (Z.b2z b)
  | _ => Raise TypeError
  end.

(** [isinstance(v, int)], with the integer it stands for. *)
Definition isinstance_int (v : pyval) : option Z :=
  match v with
  | PInt z => Some z
  | PBool b => Some (Z.b2z b)
  | _ => None
  end.

Definition string_chars (s : string) : list pyval :=
  (fun a => PStr (String a EmptyString)) <$> list_ascii_of_string s.

(** [for x in v]: the items a loop over [v] visits.  A string yields its
    characters (here: its bytes) and a dict its keys; Python visits the keys
    in insertion order, which a finite map does not record, so the model
    visits them in the map's own order. *)
Definition py_iter (v : pyval) : result (list pyval) :=
  match v with
  | PList l => Ok l
  | PStr s => Ok (string_chars s)
  | PDict d => Ok ((fun kv => PStr kv.1) <$> map_to_list d)
  | _ => Raise TypeError
  end.

(** A [for] loop whose body appends to the byte array [parts]. *)
Fixpoint for_each {A} (step : bytes -> A -> result bytes) (l : list A)
    (parts : bytes) : result bytes :=
  match l with
  | [] => Ok parts
  | x :: l' => do parts' <- step parts x; for_each step l' parts'
  end.

(** ** Hexadecimal strings *)

Definition hexval (a : ascii) : option N :=
  let n := N_of_ascii a in
  if ((48 <=? n) && (n <=? 57))%N then Some (n - 48)%N
  else if ((97 <=? n) && (n <=? 102))%N then Some (n - 87)%N
  else if ((65 <=? n) && (n <=? 70))%N then Some (n - 55)%N
  else None.

Definition is_ascii_space (a : ascii) : bool :=
  let n := N_of_ascii a in
  ((n =? 32) || ((9 <=? n) && (n <=? 13)))%N.

Definition byte_of_N (n : N) : byte :=
  default x00 (Byte.of_N (n mod 256)).

(** [bytes.fromhex(s)]: two hexadecimal digits per byte, ASCII whitespace
    between bytes skipped, [None] where Python raises [ValueError]. *)
Fixpoint fromhex (s : string) : option bytes :=
  match s with
  | EmptyString => Some []
  | String c rest =>
      if is_ascii_space c then fromhex rest
      else
        match rest with
        | EmptyString => None
        | String d rest' =>
            match hexval c, hexval d with
            | Some h, Some l =>
                match fromhex rest' with
                | Some bs => Some (byte_of_N (16 * h + l) :: bs)
                | None => None
                end
            | _, _ => None
            end
        end
  end.

Definition py_fromhex (v : pyval) : result bytes :=
  match v with
  | PStr s =>
      match fromhex s with
      | Some bs => Ok bs
      | None => Raise ValueError
      end
  | _ => Raise TypeError
  end.

Definition hexdigit (n : N) : ascii :=
  if (n <? 10)%N then ascii_of_N (48 + n) else ascii_of_N (87 + n).

(** [b.hex()]. *)
Fixpoint hex (bs : bytes) : string :=
  match bs with
  | [] => EmptyString
  | b :: bs' =>
      let n := Byte.to_N b in
      String (hexdigit (n / 16)) (String (hexdigit (n mod 16)) (hex bs'))
  end.

(** ** Keypairs and envelopes *)

(** A key of the SDK ([Ed25519KeyPair], [Secp256k1KeyPair]): what
    [public_key_bytes] gives and what [sign] does. *)
Record SdkKeyPair := {
  key_public_key_bytes : bytes;
  key_sign : bytes -> result bytes
}.

(** [session_store.AlgoKeypair]. *)
Record AlgoKeypair := {
  _inner : SdkKeyPair;
  algorithm : string;
  _acc_sig_type : Z;
  _acc_sig_str : string;
  _lite_identity : string;
  _lite_token_account : string
}.

(** The signing entry point is handed either a key of the SDK, which has
    no [_acc_sig_type] attribute, or the proxy's wrapper. *)
Inductive keypair :=
| Plain (k : SdkKeyPair)
| Wrapped (k : AlgoKeypair).

(** [AlgoKeypair.public_key_bytes] and [AlgoKeypair.sign]; both are also
    methods of the SDK's own ed25519 key. *)
Definition public_key_bytes (kp : keypair) : bytes :=
  match kp with
  | Plain k => key_public_key_bytes k
  | Wrapped k => key_public_key_bytes (_inner k)
  end.

Definition sign (kp : keypair) (message : bytes) : result bytes :=
  match kp with
  | Plain k => key_sign k message
  | Wrapped k => key_sign (_inner k) message
  end.

Record tx_header := {
  principal_of : string;
  initiator_of : string;
  memo_of : option string
}.

Record transaction := {
  header_of : tx_header;
  body_of : pydict
}.

Record signature := {
  sig_type : string;
  sig_publicKey : string;
  sig_signature : string;
  sig_signer : string;
  sig_signerVersion : Z;
  sig_timestamp : Z
}.

Record envelope := {
  env_transaction : list transaction;
  env_signatures : list signature
}.

(** ** What the patch takes from outside

    The functions of [accumulate_client.convenience] that the module calls,
    as they were before the patch, together with SHA-256 and the parsing
    that the built-in [int] does on a string. *)
Class Env := {
  _field_uvarint : Z -> Z -> bytes;
  _field_string : Z -> string -> bytes;
  _field_bytes : Z -> bytes -> bytes;
  _encode_data_entry : pyval -> result bytes;
  _data_entry_hash : pyval -> result bytes;
  _merkle_hash : list bytes -> bytes;
  _encode_tx_header : string -> bytes -> option string -> result bytes;
  _original_encode_tx_body : pydict -> result bytes;
  _original_write_data_body_hash : pydict -> result bytes;
  _original_encode_key_page_operation : pydict -> result bytes;
  (** [_conv._compute_tx_hash_and_sign] before the patch: it is handed the
      caller's body object, so it gives back the body as it leaves it. *)
  _original_compute :
    keypair -> string -> pydict -> string -> Z -> option string -> option Z ->
    pydict * result (envelope * Z);
  _sha256 : bytes -> bytes;
  (** [int(s)] for a string [s]; [None] where it raises [ValueError]. *)
  int_of_str : string -> option Z
}.

(** [int(v)]. *)
Definition py_int `{Env} (v : pyval) : result Z :=
  match v with
  | PInt z => Ok z
  | PBool b => Ok (Z.b2z b)
  | PStr s =>
      match int_of_str s with
      | Some z => Ok z
      | None => Raise ValueError
      end
  | _ => Raise TypeError
  end.

(** ** The body encoder *)

Definition _ACCOUNT_AUTH_OP_TYPE_MAP : gmap string Z :=
  list_to_map [
    ("enable", 1);
    ("disable", 2);
    ("addAuthority", 3);
    ("add", 3);
    ("removeAuthority", 4);
    ("remove", 4)
  ].

(** [m.get(k, 0)] for a dict [m] with string keys: a list or a dict is not
    hashable, any other value that is not a string is no key of [m]. *)
Definition enum_get (m : gmap string Z) (k : pyval) : result Z :=
  match k with
  | PStr s => Ok (default 0 (m !! s))
  | PList _ | PDict _ => Raise TypeError
  | _ => Ok 0
  end.

Definition nonempty (b : bytes) : bool :=
  match b with [] => false | _ :: _ => true end.

Section Encoders.
Context `{Env}.

Definition _encode_account_auth_operation (op : pyval) : result bytes :=
  do d <- as_dict op;
  let parts : bytes := [] in
  do op_type <- enum_get _ACCOUNT_AUTH_OP_TYPE_MAP (get d "type" (PStr ""));
  let parts := if (op_type =? 0)%Z then parts
               else parts ++ _field_uvarint 1 op_type in
  let authority := get d "authority" (PStr "") in
  if truthy authority then
    do a <- as_str authority;
    Ok (parts ++ _field_string 2 a)
  else Ok parts.

(** The body of the loop over [body["to"]]. *)
Definition encode_credit_recipient (parts : bytes) (recipient : pyval)
    : result bytes :=
  do r <- as_dict recipient;
  let r_parts : bytes := [] in
  do r_parts <-
    (if truthy (get_none r "url") then
       do u <- as_str (get_none r "url");
       Ok (r_parts ++ _field_string 1 u)
     else Ok r_parts);
  let amt := get r "amount" (PInt 0) in
  do r_parts <-
    (if truthy amt then
       do a <- py_int amt;
       Ok (r_parts ++ _field_uvarint 2 a)
     else Ok r_parts);
  Ok (if nonempty r_parts then parts ++ _field_bytes 2 r_parts else parts).

(** The body of the loop over [body["operations"]]. *)
Definition encode_auth_operation (parts : bytes) (op : pyval) : result bytes :=
  do op_bytes <- _encode_account_auth_operation op;
  Ok (if nonempty op_bytes then parts ++ _field_bytes 2 op_bytes else parts).

(** The branches of [_patched_encode_tx_body], before the epilogue. *)
Definition encode_tx_body_fields (body : pydict) : result bytes :=
  let body_type := get body "type" (PStr "") in
  if str_eq body_type "writeDataTo" then
    let parts := _field_uvarint 1 6 in
    do parts <-
      (if truthy (get_none body "recipient") then
         do r <- as_str (get_none body "recipient");
         Ok (parts ++ _field_string 2 r)
       else Ok parts);
    let entry := get body "entry" (PDict ∅) in
    do entry_bytes <- _encode_data_entry entry;
    Ok (if nonempty entry_bytes then parts ++ _field_bytes 3 entry_bytes
        else parts)
  else if str_eq body_type "updateAccountAuth" then
    let parts := _field_uvarint 1 21 in
    do ops <- py_iter (get body "operations" (PList []));
    for_each encode_auth_operation ops parts
  else if str_eq body_type "lockAccount" then
    let parts := _field_uvarint 1 16 in
    let height := get body "height" (PInt 0) in
    if truthy height then
      do h <- py_int height;
      Ok (parts ++ _field_uvarint 2 h)
    else Ok parts
  else if str_eq body_type "transferCredits" then
    let parts := _field_uvarint 1 18 in
    do recipients <- py_iter (get body "to" (PList []));
    for_each encode_credit_recipient recipients parts
  else if str_eq body_type "burnCredits" then
    let parts := _field_uvarint 1 17 in
    let amt := get body "amount" (PInt 0) in
    if truthy amt then
      do a <- py_int amt;
      Ok (parts ++ _field_uvarint 2 a)
    else Ok parts
  else _original_encode_tx_body body.

Definition _patched_encode_tx_body (body : pydict) : result bytes :=
  do result <- encode_tx_body_fields body;
  let epilogue := get_none body "$epilogue" in
  if truthy epilogue then
    do e <- py_fromhex epilogue;
    Ok (result ++ e)
  else Ok result.

(** ** The body hash of the data-write kinds *)

Definition _patched_write_data_body_hash (body : pydict) : result bytes :=
  let body_type := get body "type" (PStr "") in
  if negb (str_eq body_type "writeDataTo") then
    _original_write_data_body_hash body
  else
    let body_parts := _field_uvarint 1 6 in
    do body_parts <-
      (if truthy (get_none body "recipient") then
         do r <- as_str (get_none body "recipient");
         Ok (body_parts ++ _field_string 2 r)
       else Ok body_parts);
    let body_without_entry := body_parts in
    let entry := get body "entry" (PDict ∅) in
    do entry_hash <- _data_entry_hash entry;
    let h1 := _sha256 body_without_entry in
    Ok (_merkle_hash [h1; entry_hash]).

End Encoders.

(** ** The signing flow for the algorithms the SDK does not sign itself *)

Section Signing.
Context `{Env}.

(** The metadata bytes [_compute_non_ed25519] builds in [parts]. *)
Definition sig_metadata_binary (sig_type_num : Z) (pub_key : bytes)
    (signer_url : string) (signer_version timestamp : Z) : bytes :=
  let parts : bytes := [] in
  let parts := parts ++ _field_uvarint 1 sig_type_num in
  let parts := parts ++ _field_bytes 2 pub_key in
  let parts := parts ++ _field_string 4 signer_url in
  let parts := if (signer_version =? 0)%Z then parts
               else parts ++ _field_uvarint 5 signer_version in
  let parts := if (timestamp =? 0)%Z then parts
               else parts ++ _field_uvarint 6 timestamp in
  parts.

(** [if memo:] for an optional string. *)
Definition memo_set (memo : option string) : option string :=
  match memo with
  | Some (String a m) => Some (String a m)
  | _ => None
  end.

(** [now] is what [int(time.time() * 1_000_000)] evaluates to during the
    call. *)
Definition _compute_non_ed25519 (now : Z) (kp : keypair) (principal : string)
    (body : pydict) (signer_url : string) (signer_version : Z)
    (memo : option string) (timestamp : option Z) : result (envelope * Z) :=
  let pub_key := public_key_bytes kp in
  let timestamp := match timestamp with None => now | Some t => t end in
  match kp with
  | Plain _ => Raise AttributeError
  | Wrapped k =>
      let sig_type_num := _acc_sig_type k in
      let sig_type_str := _acc_sig_str k in
      let sig_metadata_binary :=
        sig_metadata_binary sig_type_num pub_key signer_url signer_version
          timestamp in
      let initiator := _sha256 sig_metadata_binary in
      do header_binary <- _encode_tx_header principal initiator memo;
      do body_binary <- _patched_encode_tx_body body;
      let header_hash := _sha256 header_binary in
      let body_type := get body "type" (PStr "") in
      do body_hash <-
        (if str_eq body_type "writeData" || str_eq body_type "writeDataTo"
         then _patched_write_data_body_hash body
         else Ok (_sha256 body_binary));
      let tx_hash := _sha256 (header_hash ++ body_hash) in
      let signing_preimage := _sha256 (initiator ++ tx_hash) in
      do signature <- sign kp signing_preimage;
      let transaction :=
        {| header_of := {| principal_of := principal;
                           initiator_of := hex initiator;
                           memo_of := memo_set memo |};
           body_of := body |} in
      let envelope :=
        {| env_transaction := [transaction];
           env_signatures :=
             [{| sig_type := sig_type_str;
                 sig_publicKey := hex pub_key;
                 sig_signature := hex signature;
                 sig_signer := signer_url;
                 sig_signerVersion := signer_version;
                 sig_timestamp := timestamp |}] |} in
      Ok (envelope, timestamp)
  end.

(** [not hasattr(keypair, '_acc_sig_type') or keypair._acc_sig_type == 2]. *)
Definition is_ed25519 (kp : keypair) : bool :=
  match kp with
  | Plain _ => true
  | Wrapped k => (_acc_sig_type k =? 2)%Z
  end.

(** The signing entry point.  The caller's body is a shared object: the
    first component of the result is that object when the call ends. *)
Definition _patched_compute (now : Z) (kp : keypair) (principal : string)
    (body : pydict) (signer_url : string) (signer_version : Z)
    (memo : option string) (timestamp : option Z)
    : pydict * result (envelope * Z) :=
  match _patched_encode_tx_body body with
  | Raise e => (body, Raise e)
  | Ok encoded =>
      let body :=
        if (length encoded =? 64)%nat
        then <["$epilogue" := PStr "00"]> body
        else body in
      if is_ed25519 kp then
        _original_compute kp principal body signer_url signer_version memo
          timestamp
      else
        (body,
         _compute_non_ed25519 now kp principal body signer_url signer_version
           memo timestamp)
  end.

End Signing.

(** ** The key page operation encoder *)

Definition _TX_TYPE_NAME_MAP : gmap string Z :=
  list_to_map [
    ("createIdentity", 1); ("createTokenAccount", 2); ("sendTokens", 3);
    ("createDataAccount", 4); ("writeData", 5); ("writeDataTo", 6);
    ("acmeFaucet", 7); ("createToken", 8); ("issueTokens", 9);
    ("burnTokens", 10); ("createLiteTokenAccount", 11);
    ("createKeyPage", 12); ("createKeyBook", 13); ("addCredits", 14);
    ("updateKeyPage", 15); ("lockAccount", 16); ("burnCredits", 17);
    ("transferCredits", 18); ("updateAccountAuth", 21); ("updateKey", 22)
  ].

(** [v or []]. *)
Definition or_empty_list (v : pyval) : pyval :=
  if truthy v then v else PList [].

Section KeyPage.
Context `{Env}.

(** The value a name of an allow or deny list stands for. *)
Definition tx_type_value (tx_name : pyval) : result Z :=
  match isinstance_int tx_name with
  | Some z => Ok z
  | None => enum_get _TX_TYPE_NAME_MAP tx_name
  end.

(** The body of the loops over [op["allow"]] and [op["deny"]]. *)
Definition encode_tx_type (field : Z) (parts : bytes) (tx_name : pyval)
    : result bytes :=
  do val <- tx_type_value tx_name;
  Ok (if (val =? 0)%Z then parts else parts ++ _field_uvarint field val).

Definition _patched_encode_key_page_operation (op : pydict) : result bytes :=
  let op_type := get op "type" (PStr "") in
  if str_eq op_type "updateAllowed" then
    let parts := _field_uvarint 1 5 in
    do allow <- py_iter (or_empty_list (get_none op "allow"));
    do parts <- for_each (encode_tx_type 2) allow parts;
    do deny <- py_iter (or_empty_list (get_none op "deny"));
    for_each (encode_tx_type 3) deny parts
  else if str_eq op_type "setRejectThreshold" then
    let parts := _field_uvarint 1 6 in
    do t <- as_int (get op "threshold" (PInt 1));
    Ok (parts ++ _field_uvarint 2 t)
  else if str_eq op_type "setResponseThreshold" then
    let parts := _field_uvarint 1 7 in
    do t <- as_int (get op "threshold" (PInt 1));
    Ok (parts ++ _field_uvarint 2 t)
  else _original_encode_key_page_operation op.

End KeyPage.

(** ** The session store *)

Module SessionStore.

(** [_sessions] is an attribute of the class: every instance reads and
    writes the same dict, so the state of a store is that one dict. *)
Abbreviation sessions := (gmap string AlgoKeypair).

Definition store (session_id : string) (keypair : AlgoKeypair)
    (_sessions : sessions) : sessions :=
  <[session_id := keypair]> _sessions.

Definition get (session_id : string) (_sessions : sessions)
    : option AlgoKeypair :=
  _sessions !! session_id.

(** [dict.pop(key, None)]: the value removed, if any, and the dict left.
    With a default it does not raise on a missing key. *)
Definition pop_default {V} (key : string) (d : gmap string V)
    : option V * gmap string V :=
  (d !! key, delete key d).

Definition remove (session_id : string) (_sessions : sessions) : sessions :=
  (pop_default session_id _sessions).2.

Definition has (session_id : string) (_sessions : sessions) : bool :=
  bool_decide (is_Some (_sessions !! session_id)).

End SessionStore.

(** * The callers of the store and of the signing entry point *)

(** ** Network configuration ([config.py]) *)

Module Config.

Definition NETWORK_ENDPOINTS : gmap string string :=
  list_to_map [
    ("mainnet", "https://mainnet.accumulatenetwork.io");
    ("testnet", "https://testnet.accumulatenetwork.io");
    ("devnet", "https://devnet.accumulatenetwork.io");
    ("kermit", "https://kermit.accumulatenetwork.io");
    ("local", "http://localhost:26660")
  ].

(** [os.getenv(name, dflt)], for the value of the variable if it is set. *)
Definition getenv (value : option string) (dflt : string) : string :=
  default dflt value.

(** The argument is the value of [ACCUMULATE_NETWORK], if set. *)
Definition get_network_endpoint (ACCUMULATE_NETWORK : option string)
    : string :=
  let network := getenv ACCUMULATE_NETWORK "testnet" in
  default (NETWORK_ENDPOINTS !!! "testnet") (NETWORK_ENDPOINTS !! network).

Definition get_network_name (ACCUMULATE_NETWORK : option string) : string :=
  getenv ACCUMULATE_NETWORK "testnet".

End Config.

(** ** Query results ([routes/query.py]) *)

(** [a or b]. *)
Definition py_or (a b : pyval) : pyval := if truthy a then a else b.

(** [{**result, **nested}] is the union in which [nested] wins. *)
Definition _normalize_query_result (result : pyval) : pyval :=
  match result with
  | PDict d =>
      let nested := py_or (get_none d "account") (get_none d "data") in
      match nested with
      | PDict n =>
          let merged := n ∪ d in
          PDict (<["_raw_nested" := nested]> merged)
      | _ => result
      end
  | _ => result
  end.

(** ** Lite URLs and key generation ([routes/keys.py]) *)

Section Keys.
Context `{Env}.

(** [hashlib.sha256] is the digest of the interface. *)
Definition _derive_lite_urls (key_hash_20 : bytes) : string * string :=
  let hex_str := hex key_hash_20 in
  let checksum := hex (drop 28 (_sha256 (list_byte_of_string hex_str))) in
  let lite_identity := "acc://" +:+ hex_str +:+ checksum in
  let lite_token_account := lite_identity +:+ "/ACME" in
  (lite_identity, lite_token_account).

(** What a generator of [_ALGORITHMS] returns. *)
Record generated := {
  gen_kp : SdkKeyPair;
  gen_pub_bytes : bytes;
  gen_key_hash : bytes;
  gen_pub_key_hash_hex : string;
  gen_lite_identity : string;
  gen_lite_token_account : string
}.

(** [_generate_ed25519], for the key [Ed25519KeyPair.generate()] gives. *)
Definition _generate_ed25519 (kp : SdkKeyPair) : generated :=
  let pub_bytes := key_public_key_bytes kp in
  let key_hash_full := _sha256 pub_bytes in
  let key_hash_20 := take 20 key_hash_full in
  let '(lid, lta) := _derive_lite_urls key_hash_20 in
  {| gen_kp := kp;
     gen_pub_bytes := pub_bytes;
     gen_key_hash := key_hash_full;
     gen_pub_key_hash_hex := hex key_hash_full;
     gen_lite_identity := lid;
     gen_lite_token_account := lta |}.

End Keys.

(** The signature type number and name [_ALGORITHMS] holds for each
    algorithm, beside its generator. *)
Definition _ALGORITHMS : gmap string (Z * string) :=
  list_to_map [
    ("ed25519", (2, "ed25519"));
    ("rcd1", (3, "rcd1"));
    ("btc", (8, "btc"));
    ("eth", (10, "eth"))
  ].

Definition ascii_lower (a : ascii) : ascii :=
  let n := N_of_ascii a in
  if ((65 <=? n) && (n <=? 90))%N then ascii_of_N (n + 32) else a.

(** [s.lower()] on the letters A to Z.  Other bytes are kept; no name of
    [_ALGORITHMS] is the lower case of a string that has any. *)
Fixpoint lower (s : string) : string :=
  match s with
  | EmptyString => EmptyString
  | String a s' => String (ascii_lower a) (lower s')
  end.

(** How a route ends: with its response, with an [HTTPException], or on
    an exception it does not catch. *)
Inductive outcome (A : Type) :=
| Response (a : A)
| HTTPException (status_code : Z)
| Unhandled (e : exn).
Arguments Response {A} a.
Arguments HTTPException {A} status_code.
Arguments Unhandled {A} e.

Record GenerateKeysResponse := {
  resp_algorithm : string;
  resp_public_key : string;
  resp_lite_identity : string;
  resp_lite_token_account : string;
  resp_public_key_hash : string
}.

(** The route [generate_keys].  [generators] is what the generator of each
    algorithm returns in this call, the session store is passed through. *)
Definition generate_keys (generators : string -> result generated)
    (algorithm : string) (store_as_signer : bool) (session_id : string)
    (_sessions : gmap string AlgoKeypair)
    : outcome GenerateKeysResponse * gmap string AlgoKeypair :=
  let algo := lower algorithm in
  match _ALGORITHMS !! algo with
  | None => (HTTPException 400, _sessions)
  | Some (sig_type_num, sig_type_str) =>
      match generators algo with
      | Raise e => (Unhandled e, _sessions)
      | Ok g =>
          let wrapper :=
            {| _inner := gen_kp g;
               algorithm := algo;
               _acc_sig_type := sig_type_num;
               _acc_sig_str := sig_type_str;
               _lite_identity := gen_lite_identity g;
               _lite_token_account := gen_lite_token_account g |} in
          let _sessions :=
            if store_as_signer
            then SessionStore.store session_id wrapper _sessions
            else _sessions in
          (Response
             {| resp_algorithm := algo;
                resp_public_key := hex (gen_pub_bytes g);
                resp_lite_identity := gen_lite_identity g;
                resp_lite_token_account := gen_lite_token_account g;
                resp_public_key_hash := gen_pub_key_hash_hex g |},
           _sessions)
      end
  end.

(** ** Lite data accounts ([routes/data.py]) *)

Fixpoint map_result {A B} (f : A -> result B) (l : list A)
    : result (list B) :=
  match l with
  | [] => Ok []
  | x :: l' =>
      do y <- f x;
      do ys <- map_result f l';
      Ok (y :: ys)
  end.

Definition fromhex_or_raise (s : string) : result bytes :=
  match fromhex s with
  | Some b => Ok b
  | None => Raise ValueError
  end.

Section Data.
Context `{Env}.

(** Feeding a hash object piece by piece hashes the concatenation. *)
Definition _compute_lite_data_account_url (data_hex_list : list string)
    : result string :=
  do item_hashes <-
    map_result (fun item_hex =>
                  do item <- fromhex_or_raise item_hex;
                  Ok (_sha256 item))
      (drop 1 data_hex_list);
  let chain_id := take 32 (_sha256 (concat item_hashes)) in
  Ok ("acc://" +:+ hex chain_id).

(** The recipient and the body the route [write_data_to] builds before it
    signs: [recipient] is the one of the request, if any. *)
Definition write_data_to_body (kp : keypair) (entries : list string)
    (recipient : option string) : result (string * pydict) :=
  let hex_entries := (fun e => hex (list_byte_of_string e)) <$> entries in
  let hex_entries :=
    if (length hex_entries <? 2)%nat
    then hex_entries ++ [hex (_sha256 (public_key_bytes kp))]
    else hex_entries in
  let entry : pydict :=
    <["type" := PStr "doubleHash"]>
      (<["data" := PList (PStr <$> hex_entries)]> ∅) in
  do recipient <-
    match recipient with
    | Some (String a r) => Ok (String a r)
    | _ => _compute_lite_data_account_url hex_entries
    end;
  Ok (recipient,
      <["type" := PStr "writeDataTo"]>
        (<["recipient" := PStr recipient]>
           (<["entry" := PDict entry]> ∅))).

End Data.

(** ** Normalising a body ([routes/generic.py]) *)

(** [str(z)] for an integer. *)
Definition string_of_Z (z : Z) : string :=
  NilZero.string_of_int (Z.to_int z).

(** What [_normalise_body] takes from the built-ins beyond the integers:
    [repr] of a list or a dict, and the floating-point arithmetic
    [int(float(s) * 100)] on a string. *)
Class Builtins := {
  py_repr : pyval -> string;
  credit_units_of_str : string -> result Z
}.

Section Normalise.
Context `{Builtins}.

(** [str(v)]. *)
Definition py_str (v : pyval) : string :=
  match v with
  | PStr s => s
  | PInt z => string_of_Z z
  | PBool true => "True"
  | PBool false => "False"
  | PNone => "None"
  | _ => py_repr v
  end.

(** [v in names] for a tuple of string literals. *)
Definition is_in (v : pyval) (names : list string) : bool :=
  existsb (str_eq v) names.

(** The first step: a flat recipient and amount become the [to] array. *)
Definition flat_to_array (body : pydict) : pydict :=
  let body_type := get body "type" (PStr "") in
  if is_in body_type ["issueTokens"; "sendTokens"; "transferCredits"]
     && truthy (get_none body "recipient")
     && negb (bool_decide (is_Some (body !! "to")))
  then
    let amt := get body "amount" (PInt 0) in
    let body' := delete "amount" body in
    let url := get_none body' "recipient" in
    let body' := delete "recipient" body' in
    let item :=
      PDict (<["url" := url]> (<["amount" := PStr (py_str amt)]> ∅)) in
    <["to" := PList [item]]> body'
  else body.

(** The body of the loop over the keys [amount] and [oracle]. *)
Definition normalise_key (is_credit_op : bool) (key : string)
    (body : pydict) : pydict :=
  match body !! key with
  | Some v =>
      match isinstance_int v with
      | Some z =>
          if is_credit_op && String.eqb key "amount"
          then <[key := PInt (z * 100)]> body
          else if negb is_credit_op
               then <[key := PStr (string_of_Z z)]> body
               else body
      | None => body
      end
  | None => body
  end.

(** The body of the loop over [body["to"]]: the entry as the loop leaves
    it. *)
Definition normalise_entry (is_credit_op : bool) (entry : pyval)
    : result pyval :=
  match entry with
  | PDict e =>
      match e !! "amount" with
      | None => Ok entry
      | Some val =>
          if is_credit_op then
            do units <-
              match val with
              | PStr s => credit_units_of_str s
              | PInt z => Ok (z * 100)
              | PBool b => Ok (Z.b2z b * 100)
              | _ => Raise TypeError
              end;
            Ok (PDict (<["amount" := PInt units]> e))
          else
            match isinstance_int val with
            | Some z => Ok (PDict (<["amount" := PStr (string_of_Z z)]> e))
            | None => Ok entry
            end
      end
  | _ => Ok entry
  end.

(** [_normalise_body] changes the body in place; the result is the body
    when it returns.  When it raises, the route drops the body. *)
Definition _normalise_body (body : pydict) : result pydict :=
  let body_type := get body "type" (PStr "") in
  let body := flat_to_array body in
  let is_credit_op := is_in body_type ["transferCredits"; "burnCredits"] in
  let body := normalise_key is_credit_op "amount" body in
  let body := normalise_key is_credit_op "oracle" body in
  match body !! "to" with
  | None => Ok body
  | Some (PList l) =>
      do l' <- map_result (normalise_entry is_credit_op) l;
      Ok (<["to" := PList l']> body)
  | Some (PStr _) | Some (PDict _) => Ok body
  | Some _ => Raise TypeError
  end.

End Normalise.

(** ** An instance of the interface

    Field writers as the protocol has them (a field is its number as an
    unsigned varint, then the value: a varint, or a length as a varint and
    the bytes), and stand-ins without cryptography for the rest.  The
    statements below hold for every instance; this one serves to evaluate
    the embedding on concrete bodies. *)
Module Reference.

(** Little-endian base-128 groups, the high bit set on all but the last. *)
Fixpoint uvarint_groups (fuel : nat) (n : N) : bytes :=
  match fuel with
  | O => []
  | S fuel' =>
      if (n <? 128)%N then [byte_of_N n]
      else byte_of_N (n mod 128 + 128) :: uvarint_groups fuel' (n / 128)
  end.

Definition encode_uvarint (z : Z) : bytes :=
  let n := Z.to_N z in
  uvarint_groups (S (N.size_nat n)) n.

Definition field_uvarint (field val : Z) : bytes :=
  encode_uvarint field ++ encode_uvarint val.

Definition field_bytes (field : Z) (val : bytes) : bytes :=
  encode_uvarint field ++ encode_uvarint (Z.of_nat (length val)) ++ val.

Definition field_string (field : Z) (val : string) : bytes :=
  field_bytes field (list_byte_of_string val).

(** Not a hash: the first 32 bytes of the input, padded with zeroes. *)
Definition digest (data : bytes) : bytes :=
  take 32 (data ++ replicate 32 x00).

Arguments digest : simpl never.

Definition encode_header (principal : string) (initiator : bytes)
    (memo : option string) : result bytes :=
  Ok (field_string 1 principal ++ field_bytes 2 initiator
      ++ match memo with
         | Some m => field_string 4 m
         | None => []
         end).

Definition env : Env := {|
  _field_uvarint := field_uvarint;
  _field_string := field_string;
  _field_bytes := field_bytes;
  _encode_data_entry := fun _ => Ok [];
  _data_entry_hash := fun _ => Ok (digest []);
  _merkle_hash := fun hs => digest (concat hs);
  _encode_tx_header := encode_header;
  _original_encode_tx_body := fun _ => Raise SdkError;
  _original_write_data_body_hash := fun _ => Raise SdkError;
  _original_encode_key_page_operation := fun _ => Raise SdkError;
  _original_compute := fun _ _ body _ _ _ _ => (body, Raise SdkError);
  _sha256 := digest;
  int_of_str := fun _ => None
|}.

(** A key whose signature is the message itself. *)
Definition echo_key : SdkKeyPair :=
  {| key_public_key_bytes := [x01; x02; x03];
     key_sign := fun message => Ok message |}.

Definition rcd1 : AlgoKeypair :=
  {| _inner := echo_key;
     algorithm := "rcd1";
     _acc_sig_type := 3;
     _acc_sig_str := "rcd1";
     _lite_identity := "acc://lite";
     _lite_token_account := "acc://lite/ACME" |}.

Definition rcd1_keypair : keypair := Wrapped rcd1.

Definition dict (l : list (string * pyval)) : pydict := list_to_map l.

(** A [transferCredits] body whose fields encode to exactly 64 bytes. *)
Definition url56 : string :=
  "acc://0123456789abcdef0123456789abcdef0123456789abcdef/b".

Definition body64 : pydict :=
  dict [("type", PStr "transferCredits");
        ("to", PList [PDict (dict [("url", PStr url56);
                                   ("amount", PInt 5)])])].

End Reference.

(** An instance of the built-ins, to evaluate the normalisation: [repr]
    is not modelled and no string is taken for a number. *)
Definition reference_builtins : Builtins :=
  {| py_repr := fun _ => "";
     credit_units_of_str := fun _ => Raise ValueError |}.

(** More of the instance: a key whose signing fails, a body whose fields
    encode to 63 bytes and that carries a one-byte epilogue, and a
    [writeDataTo] body. *)
Module Samples.

Definition failing_key : SdkKeyPair :=
  {| key_public_key_bytes := [x01; x02; x03];
     key_sign := fun _ => Raise SdkError |}.

Definition failing_rcd1 : AlgoKeypair :=
  {| _inner := failing_key;
     algorithm := "rcd1";
     _acc_sig_type := 3;
     _acc_sig_str := "rcd1";
     _lite_identity := "acc://lite";
     _lite_token_account := "acc://lite/ACME" |}.

Definition url55 : string :=
  "acc://0123456789abcdef0123456789abcdef0123456789abcdef/".

Definition body63_ff : pydict :=
  Reference.dict
    [("type", PStr "transferCredits");
     ("to", PList [PDict (Reference.dict [("url", PStr url55);
                                          ("amount", PInt 5)])]);
     ("$epilogue", PStr "ff")].

Definition write_data_to : pydict :=
  Reference.dict
    [("type", PStr "writeDataTo");
     ("recipient", PStr "acc://data");
     ("entry", PDict (Reference.dict [("type", PStr "doubleHash")]))].

Definition burn (amount : pyval) : pydict :=
  Reference.dict [("type", PStr "burnCredits"); ("amount", amount)].

Definition query_result : pyval :=
  PDict (Reference.dict
           [("status", PStr "ok");
            ("url", PStr "acc://outer");
            ("account", PDict (Reference.dict
                                 [("url", PStr "acc://inner");
                                  ("balance", PStr "5")]))]).

End Samples.

(** * The vocabulary of the statements

    What the statements below are written in: fields as the specification
    has them, the signature metadata and the signing flow of the
    specification, and the typed records a request carries as dicts. *)

(** An encoder of bodies that does not read the [$epilogue] key. *)
Definition ignores_epilogue {A} (f : pydict -> A) : Prop :=
  forall body v, f (<["$epilogue" := v]> body) = f body.

(** A field as the specification has it: a number, a wire kind, a value. *)
Inductive field :=
| FUvarint (number : Z) (value : Z)
| FString (number : Z) (value : string)
| FBytes (number : Z) (value : bytes).

Definition field_number (f : field) : Z :=
  match f with
  | FUvarint n _ | FString n _ | FBytes n _ => n
  end.

Section Vocabulary.
Context `{Env}.

(** The field writers of the SDK always write the field number. *)
Definition writers_nonempty : Prop :=
  (forall n v, _field_uvarint n v <> [])
  /\ (forall n s, _field_string n s <> []).

Definition encode_field (f : field) : bytes :=
  match f with
  | FUvarint n v => _field_uvarint n v
  | FString n s => _field_string n s
  | FBytes n b => _field_bytes n b
  end.

Definition encode_fields (fs : list field) : bytes :=
  concat (encode_field <$> fs).

(** An unsigned field that is left out when zero. *)
Definition optional_uvarint (number value : Z) : list field :=
  if (value =? 0)%Z then [] else [FUvarint number value].

(** The signature metadata of the specification, step 2 of its signing
    algorithm. *)
Definition spec_signature_metadata (tag : Z) (public_key : bytes)
    (signer_url : string) (signer_version timestamp : Z) : list field :=
  [FUvarint 1 tag; FBytes 2 public_key; FString 4 signer_url]
  ++ optional_uvarint 5 signer_version
  ++ optional_uvarint 6 timestamp.

(** [body_type in ("writeData", "writeDataTo")]. *)
Definition is_data_write (body : pydict) : bool :=
  str_eq (get body "type" (PStr "")) "writeData"
  || str_eq (get body "type" (PStr "")) "writeDataTo".

(** The body hash of the specification's hash chain, for a body that
    encodes to [B]. *)
Inductive body_hash_spec (body : pydict) (B : bytes) : bytes -> Prop :=
| body_hash_default :
    is_data_write body = false ->
    body_hash_spec body B (_sha256 B)
| body_hash_write_data (h : bytes) :
    str_eq (get body "type" (PStr "")) "writeData" = true ->
    _original_write_data_body_hash body = Ok h ->
    body_hash_spec body B h
| body_hash_write_data_to (recipient : string) (entry_hash : bytes) :
    str_eq (get body "type" (PStr "")) "writeDataTo" = true ->
    body !! "recipient" = Some (PStr recipient) ->
    recipient <> "" ->
    _data_entry_hash (get body "entry" (PDict ∅)) = Ok entry_hash ->
    body_hash_spec body B
      (_merkle_hash
         [_sha256 (encode_fields [FUvarint 1 6; FString 2 recipient]);
          entry_hash])
| body_hash_write_data_to_bare (entry_hash : bytes) :
    str_eq (get body "type" (PStr "")) "writeDataTo" = true ->
    truthy (get_none body "recipient") = false ->
    _data_entry_hash (get body "entry" (PDict ∅)) = Ok entry_hash ->
    body_hash_spec body B
      (_merkle_hash [_sha256 (encode_fields [FUvarint 1 6]); entry_hash]).

(** The signing algorithm of the specification, its steps 1 to 9, as a
    function of the first field of the metadata and of the type name of the
    signature; everything else in it is the same for every algorithm.  At
    [FUvarint 1 2] and "ed25519" it is the flow the specification gives for
    ed25519, the one the SDK implements itself. *)
Definition spec_signing_flow (field1 : field) (type_name : string)
    (key : SdkKeyPair) (now : Z) (principal : string) (body : pydict)
    (signer_url : string) (signer_version : Z) (memo : option string)
    (timestamp : option Z) : result (envelope * Z) :=
  let public_key := key_public_key_bytes key in
  let t := default now timestamp in
  let metadata :=
    field1 :: FBytes 2 public_key :: FString 4 signer_url
    :: optional_uvarint 5 signer_version ++ optional_uvarint 6 t in
  let initiator := _sha256 (encode_fields metadata) in
  do header <- _encode_tx_header principal initiator memo;
  do body_bytes <- _patched_encode_tx_body body;
  do body_hash <-
    (if is_data_write body then _patched_write_data_body_hash body
     else Ok (_sha256 body_bytes));
  let transaction_hash := _sha256 (_sha256 header ++ body_hash) in
  let signing_preimage := _sha256 (initiator ++ transaction_hash) in
  do sg <- key_sign key signing_preimage;
  Ok ({| env_transaction :=
           [{| header_of := {| principal_of := principal;
                               initiator_of := hex initiator;
                               memo_of := memo_set memo |};
               body_of := body |}];
         env_signatures :=
           [{| sig_type := type_name;
               sig_publicKey := hex public_key;
               sig_signature := hex sg;
               sig_signer := signer_url;
               sig_signerVersion := signer_version;
               sig_timestamp := t |}] |}, t).

(** [{"url": url, "amount": amount}]. *)
Definition credit_recipient (r : string * Z) : pyval :=
  PDict (<["url" := PStr r.1]> (<["amount" := PInt r.2]> ∅)).

Definition credit_recipient_fields (r : string * Z) : list field :=
  (if String.eqb r.1 "" then [] else [FString 1 r.1])
  ++ optional_uvarint 2 r.2.

(** What a recipient adds to the body: nothing when it has no field to
    encode, one nested field 2 otherwise. *)
Definition credit_recipient_entry (r : string * Z) : bytes :=
  match credit_recipient_fields r with
  | [] => []
  | fs => _field_bytes 2 (encode_fields fs)
  end.

(** [{"type": name, "authority": url}]. *)
Definition auth_operation (op : string * string) : pyval :=
  PDict (<["type" := PStr op.1]> (<["authority" := PStr op.2]> ∅)).

Definition auth_operation_fields (op : string * string) : list field :=
  match _ACCOUNT_AUTH_OP_TYPE_MAP !! op.1 with
  | Some v => [FUvarint 1 v]
  | None => []
  end
  ++ (if String.eqb op.2 "" then [] else [FString 2 op.2]).

(** What an operation adds to the body: nothing when it has no field to
    encode, one nested field 2 otherwise. *)
Definition auth_operation_entry (op : string * string) : bytes :=
  match auth_operation_fields op with
  | [] => []
  | fs => _field_bytes 2 (encode_fields fs)
  end.

(** What a name of an allow or deny list adds: its value under the given
    field number, or nothing when it names no transaction type. *)
Definition tx_type_entry (field : Z) (name : string) : bytes :=
  match _TX_TYPE_NAME_MAP !! name with
  | Some v => _field_uvarint field v
  | None => []
  end.

End Vocabulary.

(** * Properties *)

(** ** Reading a dict after a key was set *)

Lemma get_insert_ne (d : pydict) (k k' : string) (v dflt : pyval) :
  k <> k' -> get (<[k := v]> d) k' dflt = get d k' dflt.
Proof. intros Hne. unfold get. by rewrite lookup_insert_ne. Qed.

Lemma get_none_insert_ne (d : pydict) (k k' : string) (v : pyval) :
  k <> k' -> get_none (<[k := v]> d) k' = get_none d k'.
Proof. apply get_insert_ne. Qed.

Lemma get_none_insert_eq (d : pydict) (k : string) (v : pyval) :
  get_none (<[k := v]> d) k = v.
Proof. unfold get_none, get. by rewrite lookup_insert_eq. Qed.

Ltac other_keys :=
  repeat first
    [ rewrite get_none_insert_ne by discriminate
    | rewrite get_insert_ne by discriminate ].

Section PaddingGuard.
Context `{Env}.

(** The fields of a body are encoded without a look at its epilogue,
    provided the encoder of the SDK does not look at it either. *)
Lemma encode_tx_body_fields_epilogue (body : pydict) (v : pyval) :
  ignores_epilogue _original_encode_tx_body ->
  encode_tx_body_fields (<["$epilogue" := v]> body)
  = encode_tx_body_fields body.
Proof.
  intros Horig. unfold encode_tx_body_fields. other_keys.
  by rewrite Horig.
Qed.

(** A body without epilogue encodes to its fields. *)
Lemma encode_without_epilogue (body : pydict) :
  truthy (get_none body "$epilogue") = false ->
  _patched_encode_tx_body body = encode_tx_body_fields body.
Proof.
  intros Hno. unfold _patched_encode_tx_body. rewrite Hno.
  by destruct (encode_tx_body_fields body).
Qed.

(** C1 (as amended).  The signing entry point encodes the body once, as it
    is handed over, and dispatches on a body that is the caller's when this
    trial encoding is not 64 bytes long; when it is 64 bytes long and the
    body carries no epilogue, the body dispatched on has the epilogue "00"
    and encodes to the 64 bytes followed by one zero byte, 65 in all.  This
    is so for every keypair and every kind of body. *)
Theorem padding_guard (now : Z) (kp : keypair) (principal : string)
    (body : pydict) (signer_url : string) (signer_version : Z)
    (memo : option string) (timestamp : option Z) (encoded : bytes) :
  _patched_encode_tx_body body = Ok encoded ->
  exists body',
    _patched_compute now kp principal body signer_url signer_version memo
        timestamp
      = (if is_ed25519 kp
         then _original_compute kp principal body' signer_url signer_version
                memo timestamp
         else (body',
               _compute_non_ed25519 now kp principal body' signer_url
                 signer_version memo timestamp))
    /\ (length encoded <> 64%nat -> body' = body)
    /\ (length encoded = 64%nat ->
        ignores_epilogue _original_encode_tx_body ->
        truthy (get_none body "$epilogue") = false ->
        _patched_encode_tx_body body' = Ok (encoded ++ [x00])
        /\ length (encoded ++ [x00]) = 65%nat).
Proof.
  intros Henc. unfold _patched_compute. rewrite Henc.
  destruct (Nat.eqb_spec (length encoded) 64) as [Hlen | Hlen].
  - exists (<["$epilogue" := PStr "00"]> body). split; [done |].
    split; [done |]. intros _ Horig Hno. split.
    + rewrite encode_without_epilogue in Henc by done.
      unfold _patched_encode_tx_body.
      rewrite encode_tx_body_fields_epilogue, Henc by done.
      by rewrite get_none_insert_eq.
    + rewrite length_app, Hlen. done.
  - exists body. split; [done |]. split; [done |]. done.
Qed.

End PaddingGuard.

(** The guard at the 64-byte body of the instance, signed with its rcd1
    key. *)
Lemma padding_guard_witness :
  exists encoded body',
    @_patched_encode_tx_body Reference.env Reference.body64 = Ok encoded
    /\ length encoded = 64%nat
    /\ @_patched_compute Reference.env 0 Reference.rcd1_keypair "acc://p"
         Reference.body64 "acc://s" 1 None None
       = (body',
          @_compute_non_ed25519 Reference.env 0 Reference.rcd1_keypair
            "acc://p" body' "acc://s" 1 None None)
    /\ @_patched_encode_tx_body Reference.env body' = Ok (encoded ++ [x00]).
Proof.
  eexists.
  edestruct (@padding_guard Reference.env 0 Reference.rcd1_keypair "acc://p"
               Reference.body64 "acc://s" 1 None None)
    as (body' & Hrun & _ & Hpad).
  { vm_compute. reflexivity. }
  exists body'. split; [vm_compute; reflexivity |].
  split; [reflexivity |]. split; [exact Hrun |].
  apply Hpad; [reflexivity | by intros ? ? | reflexivity].
Defined.

(** C1 as the specification states it fails: the fields of this body encode
    to 64 bytes, yet it carries an epilogue already, the trial encoding has
    65 bytes, and the body is signed as it came: 65 bytes that end in 0xff,
    not in 0x00. *)
Lemma padding_guard_counterexample :
  let body := <["$epilogue" := PStr "ff"]> Reference.body64 in
  exists fields,
    @encode_tx_body_fields Reference.env body = Ok fields
    /\ length fields = 64%nat
    /\ @_patched_encode_tx_body Reference.env
         (@_patched_compute Reference.env 0 Reference.rcd1_keypair "acc://p"
            body "acc://s" 1 None None).1
       <> Ok (fields ++ [x00]).
Proof.
  eexists. split; [vm_compute; reflexivity |].
  split; [reflexivity |]. vm_compute. discriminate.
Qed.

(** ** The body hash of [writeDataTo] and the epilogue *)

Section DataWriteHash.
Context `{Env}.

(** C2.  The body hash of a [writeDataTo] body is computed from its
    recipient and its entry alone: whatever epilogue the body carries, the
    padding byte included, the hash is that of the body without it.  The
    specification says the two differ. *)
Theorem write_data_to_body_hash_epilogue (body : pydict) (epilogue : pyval) :
  let body := <["type" := PStr "writeDataTo"]> body in
  _patched_write_data_body_hash (<["$epilogue" := epilogue]> body)
  = _patched_write_data_body_hash body.
Proof.
  intros body'. unfold _patched_write_data_body_hash. other_keys.
  assert (get body' "type" (PStr "") = PStr "writeDataTo") as ->.
  { unfold body', get. by rewrite lookup_insert_eq. }
  reflexivity.
Qed.

(** For the other kinds the epilogue is appended to the encoded fields, and
    the flow below hashes these bytes. *)
Lemma epilogue_appended (body : pydict) (fields e : bytes) (s : string) :
  encode_tx_body_fields body = Ok fields ->
  body !! "$epilogue" = Some (PStr s) ->
  fromhex s = Some e ->
  _patched_encode_tx_body body = Ok (fields ++ e).
Proof.
  intros Hf Hs He. unfold _patched_encode_tx_body, get_none, get.
  rewrite Hf, Hs. simpl. rewrite He.
  destruct s as [| a s']; simpl; [| done].
  simpl in He. injection He as <-. by rewrite app_nil_r.
Qed.

End DataWriteHash.

(** ** The hash chain and the signature *)

Section Fields.
Context `{Env}.

Lemma sig_metadata_binary_fields (tag : Z) (pk : bytes) (url : string)
    (version timestamp : Z) :
  sig_metadata_binary tag pk url version timestamp
  = encode_fields (spec_signature_metadata tag pk url version timestamp).
Proof.
  unfold sig_metadata_binary, spec_signature_metadata, optional_uvarint,
    encode_fields.
  destruct (version =? 0)%Z, (timestamp =? 0)%Z; simpl;
    rewrite ?app_nil_r, <- ?app_assoc; reflexivity.
Qed.

(** The body hash the flow uses is the one of the specification. *)
Lemma body_hash_spec_computed (body : pydict) (B h : bytes) :
  body_hash_spec body B h ->
  (if is_data_write body then _patched_write_data_body_hash body
   else Ok (_sha256 B)) = Ok h.
Proof.
  intros [Hd | h' Ht Hh | r eh Ht Hr Hne He | eh Ht Hr He].
  - by rewrite Hd.
  - unfold is_data_write. rewrite Ht. simpl.
    unfold _patched_write_data_body_hash.
    destruct (get body "type" (PStr "")) as [| | | s | |] eqn:Hs;
      try discriminate.
    simpl in *. apply String.eqb_eq in Ht as ->. simpl. exact Hh.
  - unfold is_data_write. rewrite Ht, orb_true_r.
    unfold _patched_write_data_body_hash. rewrite Ht. simpl.
    assert (get_none body "recipient" = PStr r) as ->.
    { unfold get_none, get. by rewrite Hr. }
    simpl.
    destruct r as [| a r']; [done |]. simpl.
    rewrite He. simpl. unfold encode_fields. simpl.
    by rewrite app_nil_r.
  - unfold is_data_write. rewrite Ht, orb_true_r.
    unfold _patched_write_data_body_hash. rewrite Ht, Hr. simpl.
    rewrite He. simpl. unfold encode_fields. simpl.
    by rewrite app_nil_r.
Qed.

(** The flow returns as soon as its steps do, with this envelope. *)
Lemma compute_non_ed25519_ok (now : Z) (k : AlgoKeypair) (principal : string)
    (body : pydict) (signer_url : string) (signer_version : Z)
    (memo : option string) (timestamp : option Z) (Hd B h sg : bytes) :
  let kp := Wrapped k in
  let t := match timestamp with Some t => t | None => now end in
  let initiator :=
    _sha256 (sig_metadata_binary (_acc_sig_type k) (public_key_bytes kp)
               signer_url signer_version t) in
  _encode_tx_header principal initiator memo = Ok Hd ->
  _patched_encode_tx_body body = Ok B ->
  (if is_data_write body then _patched_write_data_body_hash body
   else Ok (_sha256 B)) = Ok h ->
  sign kp (_sha256 (initiator ++ _sha256 (_sha256 Hd ++ h))) = Ok sg ->
  _compute_non_ed25519 now kp principal body signer_url signer_version memo
    timestamp
  = Ok ({| env_transaction :=
             [{| header_of := {| principal_of := principal;
                                 initiator_of := hex initiator;
                                 memo_of := memo_set memo |};
                 body_of := body |}];
           env_signatures :=
             [{| sig_type := _acc_sig_str k;
                 sig_publicKey := hex (public_key_bytes kp);
                 sig_signature := hex sg;
                 sig_signer := signer_url;
                 sig_signerVersion := signer_version;
                 sig_timestamp := t |}] |}, t).
Proof.
  intros kp t initiator HH HB Hh Hs. subst initiator t kp.
  unfold _compute_non_ed25519. cbv zeta.
  rewrite HH. cbn [bind]. rewrite HB. cbn [bind].
  unfold is_data_write in Hh. rewrite Hh. cbn [bind].
  rewrite Hs. reflexivity.
Qed.

End Fields.

(** ** The signing flow *)

Section SigningFlow.
Context `{Env}.

(** C3.  For a wrapped keypair, so for each of the tags 3, 8 and 10, the
    flow returns as soon as the header encoder, the body encoder, the body
    hash and the signing capability do, and then: the initiator is the
    digest of the encoded signature metadata, the header is encoded with
    that initiator, the body hash is the digest of the encoded body or, for
    the data-write kinds, the Merkle combination of two leaves, the
    transaction hash is the digest of header hash and body hash, the
    preimage is the digest of initiator and transaction hash, and the
    signature in the envelope is the signature of that preimage. *)
Theorem non_ed25519_hash_chain (now : Z) (k : AlgoKeypair) (principal : string)
    (body : pydict) (signer_url : string) (signer_version : Z)
    (memo : option string) (timestamp : option Z)
    (header_bytes body_bytes body_hash sg : bytes) :
  let kp := Wrapped k in
  let t := match timestamp with Some t => t | None => now end in
  let metadata_bytes :=
    encode_fields
      (spec_signature_metadata (_acc_sig_type k) (public_key_bytes kp)
         signer_url signer_version t) in
  let initiator := _sha256 metadata_bytes in
  let header_hash := _sha256 header_bytes in
  let transaction_hash := _sha256 (header_hash ++ body_hash) in
  let signing_preimage := _sha256 (initiator ++ transaction_hash) in
  _encode_tx_header principal initiator memo = Ok header_bytes ->
  _patched_encode_tx_body body = Ok body_bytes ->
  body_hash_spec body body_bytes body_hash ->
  sign kp signing_preimage = Ok sg ->
  exists env,
    _compute_non_ed25519 now kp principal body signer_url signer_version memo
      timestamp = Ok (env, t)
    /\ (fun tx => initiator_of (header_of tx)) <$> env_transaction env
       = [hex initiator]
    /\ sig_signature <$> env_signatures env = [hex sg].
Proof.
  intros kp t metadata_bytes initiator header_hash transaction_hash
    signing_preimage HH HB Hh Hs.
  subst signing_preimage transaction_hash header_hash initiator
    metadata_bytes.
  rewrite <- sig_metadata_binary_fields in *.
  apply body_hash_spec_computed in Hh.
  eexists. split.
  { by apply (compute_non_ed25519_ok _ _ _ _ _ _ _ _ _ _ _ _ HH HB Hh Hs). }
  done.
Qed.

(** C4.  The metadata the flow hashes into the initiator is the encoding of
    field 1, the tag of the keypair, field 2, its public key, field 4, the
    signer URL, field 5, the signer version unless zero, and field 6, the
    timestamp unless zero, and of no other field; the timestamp is the
    caller's, or the clock's when the caller gives none, and it is the one
    the flow returns and records in the envelope. *)
Theorem signature_metadata_layout (now : Z) (k : AlgoKeypair)
    (principal : string) (body : pydict) (signer_url : string)
    (signer_version : Z) (memo : option string) (timestamp : option Z)
    (header_bytes body_bytes body_hash sg : bytes) :
  let kp := Wrapped k in
  let t := match timestamp with Some t => t | None => now end in
  let fields :=
    spec_signature_metadata (_acc_sig_type k) (public_key_bytes kp) signer_url
      signer_version t in
  let initiator := _sha256 (encode_fields fields) in
  _encode_tx_header principal initiator memo = Ok header_bytes ->
  _patched_encode_tx_body body = Ok body_bytes ->
  body_hash_spec body body_bytes body_hash ->
  sign kp (_sha256 (initiator ++ _sha256 (_sha256 header_bytes ++ body_hash)))
    = Ok sg ->
  fields
    = [FUvarint 1 (_acc_sig_type k); FBytes 2 (public_key_bytes kp);
       FString 4 signer_url]
      ++ (if (signer_version =? 0)%Z then [] else [FUvarint 5 signer_version])
      ++ (if (t =? 0)%Z then [] else [FUvarint 6 t])
  /\ ~ (3 ∈ field_number <$> fields)
  /\ sig_metadata_binary (_acc_sig_type k) (public_key_bytes kp) signer_url
       signer_version t = encode_fields fields
  /\ (timestamp = None -> t = now)
  /\ exists env,
       _compute_non_ed25519 now kp principal body signer_url signer_version
         memo timestamp = Ok (env, t)
       /\ (fun tx => initiator_of (header_of tx)) <$> env_transaction env
          = [hex initiator]
       /\ (fun s => (sig_type s, sig_publicKey s, sig_timestamp s))
            <$> env_signatures env
          = [(_acc_sig_str k, hex (public_key_bytes kp), t)].
Proof.
  intros kp t fields initiator HH HB Hh Hs.
  split; [reflexivity |]. split.
  { subst fields. unfold spec_signature_metadata, optional_uvarint.
    destruct (signer_version =? 0)%Z, (t =? 0)%Z; simpl;
      rewrite !elem_of_cons, ?elem_of_nil; intros Hin;
      repeat destruct Hin as [Hin | Hin]; done. }
  split; [apply sig_metadata_binary_fields |].
  split; [by intros -> |].
  subst initiator fields.
  rewrite <- sig_metadata_binary_fields in *.
  apply body_hash_spec_computed in Hh.
  eexists. split.
  { by apply (compute_non_ed25519_ok _ _ _ _ _ _ _ _ _ _ _ _ HH HB Hh Hs). }
  done.
Qed.

End SigningFlow.

(** The flow on the 64-byte body of the instance, signed with its rcd1 key
    at clock reading 7. *)
Lemma non_ed25519_hash_chain_witness :
  exists env,
    @_compute_non_ed25519 Reference.env 7 Reference.rcd1_keypair "acc://p"
      Reference.body64 "acc://s" 1 None None = Ok (env, 7).
Proof.
  edestruct (@non_ed25519_hash_chain Reference.env 7 Reference.rcd1 "acc://p"
               Reference.body64 "acc://s" 1 None None)
    as (env & Hrun & _).
  - vm_compute. reflexivity.
  - vm_compute. reflexivity.
  - apply body_hash_default. vm_compute. reflexivity.
  - vm_compute. reflexivity.
  - exists env. exact Hrun.
Defined.

Lemma signature_metadata_layout_witness :
  exists env,
    @_compute_non_ed25519 Reference.env 7 Reference.rcd1_keypair "acc://p"
      Reference.body64 "acc://s" 0 (Some "memo") None = Ok (env, 7).
Proof.
  edestruct (@signature_metadata_layout Reference.env 7 Reference.rcd1
               "acc://p" Reference.body64 "acc://s" 0 (Some "memo") None)
    as (_ & _ & _ & _ & env & Hrun & _).
  - vm_compute. reflexivity.
  - vm_compute. reflexivity.
  - apply body_hash_default. vm_compute. reflexivity.
  - vm_compute. reflexivity.
  - exists env. exact Hrun.
Defined.

(** ** Dispatch *)

Section Dispatch.
Context `{Env}.

Lemma compute_non_ed25519_signing_flow (now : Z) (k : AlgoKeypair)
    (principal : string) (body : pydict) (signer_url : string)
    (signer_version : Z) (memo : option string) (timestamp : option Z) :
  _compute_non_ed25519 now (Wrapped k) principal body signer_url
    signer_version memo timestamp
  = spec_signing_flow (FUvarint 1 (_acc_sig_type k)) (_acc_sig_str k) (_inner k)
      now principal body signer_url signer_version memo timestamp.
Proof.
  unfold _compute_non_ed25519, spec_signing_flow. cbv zeta.
  rewrite sig_metadata_binary_fields. unfold spec_signature_metadata.
  cbn [public_key_bytes sign app].
  assert (match timestamp with Some t => t | None => now end
          = default now timestamp) as -> by by destruct timestamp.
  unfold is_data_write. reflexivity.
Qed.

(** C5.  Once the trial encoding of the body has succeeded, a keypair without
    tag, or with tag 2, gets exactly what the original implementation
    returns on the same arguments with the padded body; a keypair with tag
    3, 8 or 10 gets the parameterised flow on the padded body, in which the
    tag only makes the first field of the metadata and the type name only
    labels the signature of the envelope. *)
Theorem patched_compute_dispatch (now : Z) (kp : keypair)
    (principal : string) (body : pydict) (signer_url : string)
    (signer_version : Z)
    (memo : option string) (timestamp : option Z) (encoded : bytes) :
  _patched_encode_tx_body body = Ok encoded ->
  let padded :=
    if (length encoded =? 64)%nat then <["$epilogue" := PStr "00"]> body
    else body in
  let run :=
    _patched_compute now kp principal body signer_url signer_version memo
      timestamp in
  let original :=
    _original_compute kp principal padded signer_url signer_version memo
      timestamp in
  (forall key, kp = Plain key -> run = original)
  /\ (forall k, kp = Wrapped k -> _acc_sig_type k = 2 -> run = original)
  /\ (forall k, kp = Wrapped k -> _acc_sig_type k ∈ [3; 8; 10] ->
      run = (padded,
             spec_signing_flow (FUvarint 1 (_acc_sig_type k)) (_acc_sig_str k)
               (_inner k) now principal padded signer_url signer_version
               memo timestamp)).
Proof.
  intros Henc padded run original. subst run original.
  unfold _patched_compute. rewrite Henc. fold padded.
  split; [by intros key -> |].
  split; [intros k -> Htag; simpl; by rewrite Htag |].
  intros k -> Htag. rewrite <- compute_non_ed25519_signing_flow.
  assert ((_acc_sig_type k =? 2)%Z = false) as Hne.
  { apply Z.eqb_neq. intros Heq. rewrite Heq in Htag.
    rewrite !elem_of_cons, elem_of_nil in Htag. lia. }
  simpl. by rewrite Hne.
Qed.

End Dispatch.

(** Dispatch on the 64-byte body of the instance with its rcd1 key. *)
Lemma patched_compute_dispatch_witness :
  exists padded,
    @_patched_compute Reference.env 7 Reference.rcd1_keypair "acc://p"
      Reference.body64 "acc://s" 1 None None
    = (padded,
       @spec_signing_flow Reference.env (FUvarint 1 3) "rcd1"
         Reference.echo_key 7
         "acc://p" padded "acc://s" 1 None None).
Proof.
  edestruct (@patched_compute_dispatch Reference.env 7
               Reference.rcd1_keypair "acc://p" Reference.body64 "acc://s" 1
               None None) as (_ & _ & Hflow).
  { vm_compute. reflexivity. }
  eexists. apply (Hflow Reference.rcd1 eq_refl).
  change (_acc_sig_type Reference.rcd1) with 3.
  rewrite !elem_of_cons. by left.
Defined.

(** ** Repeated entries *)

Lemma for_each_append {A B} (step : bytes -> B -> result bytes) (f : A -> B)
    (entry : A -> bytes) (l : list A) (parts : bytes) :
  (forall parts x, step parts (f x) = Ok (parts ++ entry x)) ->
  for_each step (f <$> l) parts = Ok (parts ++ concat (entry <$> l)).
Proof.
  intros Hstep. revert parts.
  induction l as [| x l IH]; intros parts; simpl.
  - by rewrite app_nil_r.
  - rewrite Hstep. simpl. rewrite IH. by rewrite app_assoc.
Qed.

Lemma string_eqb_empty (s : string) :
  String.eqb s "" = match s with EmptyString => true | String _ _ => false end.
Proof. by destruct s. Qed.

Section Repeated.
Context `{Env}.

Lemma encode_fields_nil_inv (fs : list field) :
  writers_nonempty ->
  (forall f, f ∈ fs -> match f with FBytes _ _ => False | _ => True end) ->
  encode_fields fs = [] -> fs = [].
Proof.
  intros [Hu Hs] Hkind. destruct fs as [| f fs]; [done |].
  unfold encode_fields. simpl. intros Happ.
  apply app_eq_nil in Happ as [Hf _].
  specialize (Hkind f (list_elem_of_here _ _)).
  destruct f; simpl in *; [by apply Hu in Hf | by apply Hs in Hf | done].
Qed.

Lemma encode_credit_recipient_typed (parts : bytes) (r : string * Z) :
  writers_nonempty ->
  encode_credit_recipient parts (credit_recipient r)
  = Ok (parts ++ credit_recipient_entry r).
Proof.
  intros [Hu Hs]. destruct r as [url amount].
  unfold encode_credit_recipient, credit_recipient, credit_recipient_entry,
    credit_recipient_fields, optional_uvarint, encode_fields.
  cbn [as_dict bind fst snd].
  assert (get_none (<["url" := PStr url]> (<["amount" := PInt amount]> ∅))
            "url" = PStr url) as ->.
  { unfold get_none, get. by rewrite lookup_insert_eq. }
  assert (get (<["url" := PStr url]> (<["amount" := PInt amount]> ∅))
            "amount" (PInt 0) = PInt amount) as ->.
  { unfold get. rewrite lookup_insert_ne by done.
    by rewrite lookup_insert_eq. }
  rewrite string_eqb_empty.
  destruct url as [| a url']; destruct (Z.eqb_spec amount 0) as [-> | Hne];
    cbn [truthy negb as_str bind py_int app fmap list_fmap concat encode_field].
  - simpl. by rewrite app_nil_r.
  - rewrite (proj2 (Z.eqb_neq amount 0) Hne). simpl.
    rewrite app_nil_r.
    destruct (_field_uvarint 2 amount) eqn:E; [by apply Hu in E | done].
  - simpl. rewrite app_nil_r.
    destruct (_field_string 1 (String a url')) eqn:E;
      [by apply Hs in E | done].
  - rewrite (proj2 (Z.eqb_neq amount 0) Hne). simpl.
    rewrite app_nil_r.
    destruct (_field_string 1 (String a url')) eqn:E;
      [by apply Hs in E | done].
Qed.

(** C6 (as amended).  A [transferCredits] body encodes to field 1 = 18
    followed, in input order, by one field-2 bytes entry for each recipient
    that has a url or a nonzero amount, the entry nesting field 1 = url,
    left out when empty, and field 2 = amount, left out when zero; a
    recipient with neither adds nothing.  For the two recipients
    acc://a with 5 and acc://b with 0 these are two entries, the second
    with the url only. *)
Theorem transfer_credits_encoding (body : pydict)
    (recipients : list (string * Z)) :
  writers_nonempty ->
  body !! "type" = Some (PStr "transferCredits") ->
  body !! "to" = Some (PList (credit_recipient <$> recipients)) ->
  truthy (get_none body "$epilogue") = false ->
  _patched_encode_tx_body body
  = Ok (_field_uvarint 1 18 ++ concat (credit_recipient_entry <$> recipients))
  /\ (recipients = [("acc://a", 5); ("acc://b", 0)] ->
      _patched_encode_tx_body body
      = Ok (_field_uvarint 1 18
            ++ _field_bytes 2 (_field_string 1 "acc://a" ++ _field_uvarint 2 5)
            ++ _field_bytes 2 (_field_string 1 "acc://b"))).
Proof.
  intros Hw Htype Hto Hno.
  assert (_patched_encode_tx_body body
          = Ok (_field_uvarint 1 18
                ++ concat (credit_recipient_entry <$> recipients))) as Henc.
  { rewrite encode_without_epilogue by done.
    unfold encode_tx_body_fields, get. rewrite Htype, Hto.
    cbn [default str_eq String.eqb Ascii.eqb Bool.eqb py_iter bind].
    apply for_each_append. intros parts r.
    by apply encode_credit_recipient_typed. }
  split; [exact Henc |].
  intros ->. rewrite Henc. unfold credit_recipient_entry, encode_fields.
  simpl. by rewrite !app_nil_r.
Qed.

End Repeated.

Lemma reference_writers_nonempty : @writers_nonempty Reference.env.
Proof.
  assert (forall z, Reference.encode_uvarint z <> []) as Hv.
  { intros z. unfold Reference.encode_uvarint. simpl.
    by destruct (Z.to_N z <? 128)%N. }
  split; intros n v; simpl.
  - unfold Reference.field_uvarint. intros Happ.
    apply app_eq_nil in Happ as [Hn _]. by apply Hv in Hn.
  - unfold Reference.field_string, Reference.field_bytes. intros Happ.
    apply app_eq_nil in Happ as [Hn _]. by apply Hv in Hn.
Qed.

(** The two recipients of the specification's scenario. *)
Lemma transfer_credits_encoding_witness :
  @_patched_encode_tx_body Reference.env
    (Reference.dict
       [("type", PStr "transferCredits");
        ("to", PList (credit_recipient
                        <$> [("acc://a", 5); ("acc://b", 0)]))])
  = Ok (Reference.field_uvarint 1 18
        ++ Reference.field_bytes 2
             (Reference.field_string 1 "acc://a"
              ++ Reference.field_uvarint 2 5)
        ++ Reference.field_bytes 2 (Reference.field_string 1 "acc://b")).
Proof.
  apply (@transfer_credits_encoding Reference.env _
           [("acc://a", 5); ("acc://b", 0)]).
  - exact reference_writers_nonempty.
  - reflexivity.
  - reflexivity.
  - reflexivity.
  - reflexivity.
Defined.

(** C6 as the specification states it fails: of these two recipients the
    second has neither url nor amount, and the body encodes with one field-2
    entry, not with one per recipient, whatever the second entry were to
    hold. *)
Lemma transfer_credits_counterexample :
  let body :=
    Reference.dict
      [("type", PStr "transferCredits");
       ("to", PList [credit_recipient ("acc://a", 5);
                     credit_recipient ("", 0)])] in
  let first :=
    Reference.field_bytes 2
      (Reference.field_string 1 "acc://a" ++ Reference.field_uvarint 2 5) in
  @_patched_encode_tx_body Reference.env body
  = Ok (Reference.field_uvarint 1 18 ++ first)
  /\ forall nested,
       @_patched_encode_tx_body Reference.env body
       <> Ok (Reference.field_uvarint 1 18 ++ first
              ++ Reference.field_bytes 2 nested).
Proof.
  intros body first.
  assert (@_patched_encode_tx_body Reference.env body
          = Ok (Reference.field_uvarint 1 18 ++ first)) as Henc
    by (vm_compute; reflexivity).
  split; [exact Henc |]. intros nested Heq. rewrite Henc in Heq.
  apply (f_equal (fun r => match r with Ok b => length b | Raise _ => O end))
    in Heq.
  cbv beta iota in Heq. rewrite !length_app in Heq.
  unfold Reference.field_bytes in Heq. rewrite !length_app in Heq.
  change (length (Reference.encode_uvarint 2)) with 1%nat in Heq. lia.
Qed.

(** ** Operations of [updateAccountAuth] *)

Lemma op_type_nonzero (name : string) (v : Z) :
  _ACCOUNT_AUTH_OP_TYPE_MAP !! name = Some v -> v <> 0.
Proof.
  intros Hin. apply elem_of_list_to_map_2 in Hin.
  repeat (apply elem_of_cons in Hin as [Hin | Hin];
          [injection Hin as _ ->; lia |]).
  by apply elem_of_nil in Hin.
Qed.

Section AccountAuth.
Context `{Env}.

Lemma encode_account_auth_operation_typed (op : string * string) :
  _encode_account_auth_operation (auth_operation op)
  = Ok (encode_fields (auth_operation_fields op)).
Proof.
  destruct op as [name authority].
  unfold _encode_account_auth_operation, auth_operation,
    auth_operation_fields, encode_fields.
  cbn [as_dict bind fst snd].
  assert (get (<["type" := PStr name]> (<["authority" := PStr authority]> ∅))
            "type" (PStr "") = PStr name) as ->.
  { unfold get. by rewrite lookup_insert_eq. }
  assert (get (<["type" := PStr name]> (<["authority" := PStr authority]> ∅))
            "authority" (PStr "") = PStr authority) as ->.
  { unfold get. rewrite lookup_insert_ne by done.
    by rewrite lookup_insert_eq. }
  cbn [enum_get bind]. rewrite string_eqb_empty.
  destruct (_ACCOUNT_AUTH_OP_TYPE_MAP !! name) as [v |] eqn:Hname;
    cbn [default from_option id].
  - apply op_type_nonzero in Hname.
    rewrite (proj2 (Z.eqb_neq v 0) Hname).
    destruct authority; simpl; by rewrite ?app_nil_r.
  - destruct authority; simpl; by rewrite ?app_nil_r.
Qed.

Lemma encode_auth_operation_typed (parts : bytes) (op : string * string) :
  writers_nonempty ->
  encode_auth_operation parts (auth_operation op)
  = Ok (parts ++ auth_operation_entry op).
Proof.
  intros Hw. unfold encode_auth_operation.
  rewrite encode_account_auth_operation_typed. cbn [bind].
  unfold auth_operation_entry.
  destruct (auth_operation_fields op) as [| f fs] eqn:Hfs.
  - simpl. by rewrite app_nil_r.
  - destruct (encode_fields (f :: fs)) eqn:Henc; [| done].
    apply encode_fields_nil_inv in Henc; [done | done |].
    intros g Hg. rewrite <- Hfs in Hg. unfold auth_operation_fields in Hg.
    apply elem_of_app in Hg as [Hg | Hg].
    + destruct (_ACCOUNT_AUTH_OP_TYPE_MAP !! op.1);
        [apply list_elem_of_singleton in Hg as -> | apply elem_of_nil in Hg];
        done.
    + destruct (String.eqb op.2 "");
        [apply elem_of_nil in Hg | apply list_elem_of_singleton in Hg as ->];
        done.
Qed.

(** C7 (as amended).  An [updateAccountAuth] body encodes to field 1 = 21
    followed, in input order, by one field-2 bytes entry for each operation
    that has a recognised type or an authority, the entry nesting field 1 =
    the enum of the type, left out when the type is none of the recognised
    names, and field 2 = the authority, left out when empty; an operation
    with neither adds nothing.  The names map as enable = 1, disable = 2,
    addAuthority = add = 3, removeAuthority = remove = 4, and the single
    operation add of acc://x/book encodes to one entry holding 3 and that
    url. *)
Theorem update_account_auth_encoding (body : pydict)
    (operations : list (string * string)) :
  writers_nonempty ->
  body !! "type" = Some (PStr "updateAccountAuth") ->
  body !! "operations" = Some (PList (auth_operation <$> operations)) ->
  truthy (get_none body "$epilogue") = false ->
  _patched_encode_tx_body body
  = Ok (_field_uvarint 1 21 ++ concat (auth_operation_entry <$> operations))
  /\ (fun name => _ACCOUNT_AUTH_OP_TYPE_MAP !! name)
       <$> ["enable"; "disable"; "addAuthority"; "removeAuthority"; "add";
            "remove"]
     = [Some 1; Some 2; Some 3; Some 4; Some 3; Some 4]
  /\ (operations = [("add", "acc://x/book")] ->
      _patched_encode_tx_body body
      = Ok (_field_uvarint 1 21
            ++ _field_bytes 2
                 (_field_uvarint 1 3 ++ _field_string 2 "acc://x/book"))).
Proof.
  intros Hw Htype Hops Hno.
  assert (_patched_encode_tx_body body
          = Ok (_field_uvarint 1 21
                ++ concat (auth_operation_entry <$> operations))) as Henc.
  { rewrite encode_without_epilogue by done.
    unfold encode_tx_body_fields, get. rewrite Htype, Hops.
    cbn [default str_eq String.eqb Ascii.eqb Bool.eqb py_iter bind].
    apply for_each_append. intros parts op.
    by apply encode_auth_operation_typed. }
  split; [exact Henc |]. split; [reflexivity |].
  intros ->. rewrite Henc. cbn [fmap list_fmap concat].
  unfold auth_operation_entry.
  assert (auth_operation_fields ("add", "acc://x/book")
          = [FUvarint 1 3; FString 2 "acc://x/book"]) as ->
    by (vm_compute; reflexivity).
  unfold encode_fields. cbn [fmap list_fmap concat encode_field].
  by rewrite !app_nil_r.
Qed.

(** An operation whose type is none of the recognised names is encoded
    without its type. *)
Lemma unknown_operation_type (name authority : string) :
  _ACCOUNT_AUTH_OP_TYPE_MAP !! name = None ->
  _encode_account_auth_operation (auth_operation (name, authority))
  = Ok (if String.eqb authority "" then []
        else _field_string 2 authority).
Proof.
  intros Hname. rewrite encode_account_auth_operation_typed.
  unfold auth_operation_fields, encode_fields. cbn [fst snd].
  rewrite Hname. destruct (String.eqb authority ""); simpl;
    by rewrite ?app_nil_r.
Qed.

End AccountAuth.

Lemma update_account_auth_encoding_witness :
  @_patched_encode_tx_body Reference.env
    (Reference.dict
       [("type", PStr "updateAccountAuth");
        ("operations", PList (auth_operation <$> [("add", "acc://x/book")]))])
  = Ok (Reference.field_uvarint 1 21
        ++ Reference.field_bytes 2
             (Reference.field_uvarint 1 3
              ++ Reference.field_string 2 "acc://x/book")).
Proof.
  apply (@update_account_auth_encoding Reference.env _
           [("add", "acc://x/book")]).
  - exact reference_writers_nonempty.
  - reflexivity.
  - reflexivity.
  - reflexivity.
  - reflexivity.
Defined.

(** C7 as the specification states it fails: the second of these two
    operations has no recognised type and no authority, and the body encodes
    with one field-2 entry, not with one per operation, whatever the second
    entry were to hold. *)
Lemma update_account_auth_counterexample :
  let body :=
    Reference.dict
      [("type", PStr "updateAccountAuth");
       ("operations", PList [auth_operation ("add", "acc://x/book");
                             auth_operation ("bogus", "")])] in
  let first :=
    Reference.field_bytes 2
      (Reference.field_uvarint 1 3
       ++ Reference.field_string 2 "acc://x/book") in
  @_patched_encode_tx_body Reference.env body
  = Ok (Reference.field_uvarint 1 21 ++ first)
  /\ forall nested,
       @_patched_encode_tx_body Reference.env body
       <> Ok (Reference.field_uvarint 1 21 ++ first
              ++ Reference.field_bytes 2 nested).
Proof.
  intros body first.
  assert (@_patched_encode_tx_body Reference.env body
          = Ok (Reference.field_uvarint 1 21 ++ first)) as Henc
    by (vm_compute; reflexivity).
  split; [exact Henc |]. intros nested Heq. rewrite Henc in Heq.
  apply (f_equal (fun r => match r with Ok b => length b | Raise _ => O end))
    in Heq.
  cbv beta iota in Heq. rewrite !length_app in Heq.
  unfold Reference.field_bytes in Heq. rewrite !length_app in Heq.
  change (length (Reference.encode_uvarint 2)) with 1%nat in Heq. lia.
Qed.

(** ** Names of transaction types in [updateAllowed] *)

Lemma tx_type_nonzero (name : string) (v : Z) :
  _TX_TYPE_NAME_MAP !! name = Some v -> v <> 0.
Proof.
  intros Hin. apply elem_of_list_to_map_2 in Hin.
  repeat (apply elem_of_cons in Hin as [Hin | Hin];
          [injection Hin as _ ->; lia |]).
  by apply elem_of_nil in Hin.
Qed.

Section UpdateAllowed.
Context `{Env}.

Lemma encode_tx_type_name (field : Z) (parts : bytes) (name : string) :
  encode_tx_type field parts (PStr name)
  = Ok (parts ++ tx_type_entry field name).
Proof.
  unfold encode_tx_type, tx_type_value, tx_type_entry.
  cbn [isinstance_int enum_get bind].
  destruct (_TX_TYPE_NAME_MAP !! name) as [v |] eqn:Hname;
    cbn [default from_option id].
  - apply tx_type_nonzero in Hname.
    by rewrite (proj2 (Z.eqb_neq v 0) Hname).
  - simpl. by rewrite app_nil_r.
Qed.

Lemma iter_names (names : list string) :
  py_iter (or_empty_list (PList (PStr <$> names))) = Ok (PStr <$> names).
Proof. by destruct names. Qed.

Lemma encode_update_allowed (op : pydict) (allow deny : list string) :
  op !! "type" = Some (PStr "updateAllowed") ->
  op !! "allow" = Some (PList (PStr <$> allow)) ->
  op !! "deny" = Some (PList (PStr <$> deny)) ->
  _patched_encode_key_page_operation op
  = Ok (_field_uvarint 1 5
        ++ concat (tx_type_entry 2 <$> allow)
        ++ concat (tx_type_entry 3 <$> deny)).
Proof.
  intros Htype Hallow Hdeny.
  unfold _patched_encode_key_page_operation, get_none, get.
  rewrite Htype, Hallow, Hdeny.
  cbn [default from_option id str_eq String.eqb Ascii.eqb Bool.eqb].
  rewrite !iter_names. cbn [bind].
  rewrite (for_each_append _ PStr (tx_type_entry 2))
    by (intros; apply encode_tx_type_name).
  cbn [bind].
  rewrite (for_each_append _ PStr (tx_type_entry 3))
    by (intros; apply encode_tx_type_name).
  by rewrite app_assoc.
Qed.

(** C8 (as amended).  A value outside a field's domain raises nothing and
    is left out of the encoding, the rest being encoded as usual: an
    operation of [updateAccountAuth] whose type is none of the recognised
    names is encoded as its authority alone, or as nothing when it has
    none, and in the allow and deny lists of [updateAllowed] a name that is
    no transaction type adds nothing while the other names add their
    values. *)
Theorem unknown_values_elided (name authority : string) (op : pydict)
    (allow deny : list string) :
  _ACCOUNT_AUTH_OP_TYPE_MAP !! name = None ->
  op !! "type" = Some (PStr "updateAllowed") ->
  op !! "allow" = Some (PList (PStr <$> allow)) ->
  op !! "deny" = Some (PList (PStr <$> deny)) ->
  _encode_account_auth_operation (auth_operation (name, authority))
  = Ok (if String.eqb authority "" then [] else _field_string 2 authority)
  /\ _patched_encode_key_page_operation op
     = Ok (_field_uvarint 1 5
           ++ concat (tx_type_entry 2 <$> allow)
           ++ concat (tx_type_entry 3 <$> deny))
  /\ (forall field unknown,
        _TX_TYPE_NAME_MAP !! unknown = None ->
        tx_type_entry field unknown = []).
Proof.
  intros Hname Htype Hallow Hdeny.
  split; [by apply unknown_operation_type |].
  split; [by apply encode_update_allowed |].
  intros field unknown Hunknown. unfold tx_type_entry. by rewrite Hunknown.
Qed.

End UpdateAllowed.

Lemma unknown_values_elided_witness :
  @_encode_account_auth_operation Reference.env
    (auth_operation ("bogus", "acc://x/book"))
  = Ok (Reference.field_string 2 "acc://x/book")
  /\ @_patched_encode_key_page_operation Reference.env
       (Reference.dict
          [("type", PStr "updateAllowed");
           ("allow", PList (PStr <$> ["bogus"; "writeData"]));
           ("deny", PList (PStr <$> ["sendTokens"; "nope"]))])
     = Ok (Reference.field_uvarint 1 5 ++ Reference.field_uvarint 2 5
           ++ Reference.field_uvarint 3 3).
Proof.
  destruct (@unknown_values_elided Reference.env "bogus" "acc://x/book"
              (Reference.dict
                 [("type", PStr "updateAllowed");
                  ("allow", PList (PStr <$> ["bogus"; "writeData"]));
                  ("deny", PList (PStr <$> ["sendTokens"; "nope"]))])
              ["bogus"; "writeData"] ["sendTokens"; "nope"])
    as (Hop & Hallowed & _).
  - reflexivity.
  - reflexivity.
  - reflexivity.
  - reflexivity.
  - split; [exact Hop |]. rewrite Hallowed. vm_compute. reflexivity.
Defined.

(** C8 as the specification states it fails: neither encoder raises on a
    value it does not know. The operation of unknown type is encoded as its
    authority, and the unknown name of the allow list is passed over. *)
Lemma unknown_values_counterexample :
  @_patched_encode_tx_body Reference.env
    (Reference.dict
       [("type", PStr "updateAccountAuth");
        ("operations", PList [auth_operation ("bogus", "acc://x/book")])])
  = Ok (Reference.field_uvarint 1 21
        ++ Reference.field_bytes 2 (Reference.field_string 2 "acc://x/book"))
  /\ @_patched_encode_key_page_operation Reference.env
       (Reference.dict
          [("type", PStr "updateAllowed");
           ("allow", PList [PStr "bogus"; PStr "writeData"])])
     = Ok (Reference.field_uvarint 1 5 ++ Reference.field_uvarint 2 5).
Proof. split; vm_compute; reflexivity. Qed.

(** ** The caller's body *)

Section Frame.
Context `{Env}.

(** C9 (as amended).  When the trial encoding raises, the call ends there
    with the caller's body as it was.  Otherwise the body the call goes on
    with, and leaves to the caller, is the caller's body except for one
    key: it is the same body when the trial encoding is not 64 bytes long,
    and the body with [$epilogue] set to "00", every other key as it was,
    when it is.  The parameterised flow leaves that body as it is; the
    original implementation is handed it. *)
Theorem caller_body_frame (now : Z) (kp : keypair) (principal : string)
    (body : pydict) (signer_url : string) (signer_version : Z)
    (memo : option string) (timestamp : option Z) :
  let run :=
    _patched_compute now kp principal body signer_url signer_version memo
      timestamp in
  (forall e, _patched_encode_tx_body body = Raise e -> run = (body, Raise e))
  /\ (forall encoded,
        _patched_encode_tx_body body = Ok encoded ->
        exists handed : pydict,
          (forall key, key <> "$epilogue" -> handed !! key = body !! key)
          /\ (length encoded <> 64%nat -> handed = body)
          /\ (length encoded = 64%nat ->
              handed = <["$epilogue" := PStr "00"]> body)
          /\ (is_ed25519 kp = false -> run.1 = handed)
          /\ (is_ed25519 kp = true ->
              run = _original_compute kp principal handed signer_url
                      signer_version memo timestamp)).
Proof.
  intros run. subst run. unfold _patched_compute. split.
  - intros e ->. reflexivity.
  - intros encoded ->.
    destruct (Nat.eqb_spec (length encoded) 64) as [Hlen | Hlen].
    + exists (<["$epilogue" := PStr "00"]> body).
      split; [intros key Hkey; by rewrite lookup_insert_ne |].
      split; [done |]. split; [done |].
      split; intros ->; reflexivity.
    + exists body. split; [done |]. split; [done |]. split; [done |].
      split; intros ->; reflexivity.
Qed.

End Frame.

(** C9 as the specification states it fails: the 64-byte body of the
    instance carries no epilogue when it is handed over and carries one when
    the call is over. *)
Lemma caller_body_counterexample :
  let after :=
    (@_patched_compute Reference.env 0 Reference.rcd1_keypair "acc://p"
       Reference.body64 "acc://s" 1 None None).1 in
  Reference.body64 !! "$epilogue" = None
  /\ after !! "$epilogue" = Some (PStr "00")
  /\ after <> Reference.body64.
Proof.
  intros after.
  assert (after !! "$epilogue" = Some (PStr "00")) as Hafter
    by (vm_compute; reflexivity).
  split; [reflexivity |]. split; [exact Hafter |].
  intros Heq. rewrite Heq in Hafter. discriminate Hafter.
Qed.

(** ** The session store *)

(** C10.  After [store(s, k)], [get(s)] is [k] and [has(s)] holds; after
    [remove(s)], [get(s)] is [None] and [has(s)] does not hold; [remove(s)]
    leaves a store without [s] as it is, and as a call of [dict.pop] with a
    default it raises nothing; and neither [store] nor [remove] on [s]
    changes what is kept under another id, while [get] and [has] only
    read. *)
Theorem session_store_laws (s : string) (k : AlgoKeypair)
    (_sessions : gmap string AlgoKeypair) :
  SessionStore.get s (SessionStore.store s k _sessions) = Some k
  /\ SessionStore.has s (SessionStore.store s k _sessions) = true
  /\ SessionStore.get s (SessionStore.remove s _sessions) = None
  /\ SessionStore.has s (SessionStore.remove s _sessions) = false
  /\ (SessionStore.has s _sessions = false ->
      SessionStore.remove s _sessions = _sessions)
  /\ (forall s', s' <> s ->
        SessionStore.get s' (SessionStore.store s k _sessions)
        = SessionStore.get s' _sessions
        /\ SessionStore.get s' (SessionStore.remove s _sessions)
           = SessionStore.get s' _sessions
        /\ SessionStore.has s' (SessionStore.store s k _sessions)
           = SessionStore.has s' _sessions
        /\ SessionStore.has s' (SessionStore.remove s _sessions)
           = SessionStore.has s' _sessions).
Proof.
  unfold SessionStore.get, SessionStore.has, SessionStore.store,
    SessionStore.remove, SessionStore.pop_default. cbn [snd].
  repeat split.
  - by rewrite lookup_insert_eq.
  - rewrite lookup_insert_eq. by apply bool_decide_eq_true.
  - by rewrite lookup_delete_eq.
  - rewrite lookup_delete_eq. apply bool_decide_eq_false.
    by intros [? ?].
  - intros Hno. apply bool_decide_eq_false in Hno.
    apply delete_id. by apply eq_None_not_Some.
  - by rewrite lookup_insert_ne.
  - by rewrite lookup_delete_ne.
  - by rewrite lookup_insert_ne.
  - by rewrite lookup_delete_ne.
Qed.

(** * Further properties of the body encoder and of the guard *)

(** ** Hexadecimal strings *)

Lemma hex_digits_of_byte (b : byte) :
  let n := Byte.to_N b in
  is_ascii_space (hexdigit (n / 16)) = false
  /\ hexval (hexdigit (n / 16)) = Some (n / 16)%N
  /\ hexval (hexdigit (n mod 16)) = Some (n mod 16)%N
  /\ byte_of_N (16 * (n / 16) + n mod 16) = b.
Proof. destruct b; vm_compute; repeat split; reflexivity. Qed.

(** What [bytes.hex] writes, [bytes.fromhex] reads back. *)
Lemma fromhex_hex (bs : bytes) : fromhex (hex bs) = Some bs.
Proof.
  induction bs as [| b bs IH]; [reflexivity |].
  destruct (hex_digits_of_byte b) as (Hsp & Hhi & Hlo & Hb).
  cbn [hex fromhex]. rewrite Hsp, Hhi, Hlo, IH, Hb. reflexivity.
Qed.

Lemma hex_nonempty (bs : bytes) : bs <> [] -> hex bs <> "".
Proof. by destruct bs. Qed.

Lemma hex_length (bs : bytes) :
  String.length (hex bs) = (2 * length bs)%nat.
Proof. induction bs as [| b bs IH]; simpl; lia. Qed.

Section BodyEncoder.
Context `{Env}.

Lemma encode_with_epilogue (body : pydict) (s : string) :
  body !! "$epilogue" = Some (PStr s) ->
  s <> "" ->
  _patched_encode_tx_body body
  = do fields <- encode_tx_body_fields body;
    match fromhex s with
    | Some e => Ok (fields ++ e)
    | None => Raise ValueError
    end.
Proof.
  intros Hs Hne. unfold _patched_encode_tx_body, get_none, get.
  rewrite Hs. cbn [default from_option id truthy py_fromhex].
  destruct s as [| a s']; [done |].
  destruct (encode_tx_body_fields body) as [fields | e]; [| done].
  cbn [bind]. by destruct (fromhex (String a s')).
Qed.

(** X1.  A [burnCredits] body encodes to field 1 = 17 and a [lockAccount]
    body to field 1 = 16, each followed by field 2, the amount or the
    height, which is left out when it is zero or missing. *)
Theorem scalar_body_encoding (body : pydict) (a : Z) :
  truthy (get_none body "$epilogue") = false ->
  (body !! "type" = Some (PStr "burnCredits") ->
   get body "amount" (PInt 0) = PInt a ->
   _patched_encode_tx_body body
   = Ok (_field_uvarint 1 17
         ++ (if (a =? 0)%Z then [] else _field_uvarint 2 a)))
  /\ (body !! "type" = Some (PStr "lockAccount") ->
      get body "height" (PInt 0) = PInt a ->
      _patched_encode_tx_body body
      = Ok (_field_uvarint 1 16
            ++ (if (a =? 0)%Z then [] else _field_uvarint 2 a))).
Proof.
  intros Hno. split; intros Htype Hval;
    rewrite encode_without_epilogue by done;
    unfold encode_tx_body_fields; rewrite Hval; unfold get;
    rewrite Htype;
    cbn [default from_option id str_eq String.eqb Ascii.eqb Bool.eqb truthy
         py_int];
    destruct (a =? 0)%Z; cbn [negb bind]; by rewrite ?app_nil_r.
Qed.

(** X2.  An amount given as a string is not tested against zero: the
    string, when not empty, is parsed by [int] and its value is written as
    field 2 whatever it is, zero included; a string [int] rejects makes the
    whole encoding raise [ValueError]. *)
Theorem string_amount_encoding (body : pydict) (s : string) :
  truthy (get_none body "$epilogue") = false ->
  body !! "type" = Some (PStr "burnCredits") ->
  body !! "amount" = Some (PStr s) ->
  s <> "" ->
  _patched_encode_tx_body body
  = match int_of_str s with
    | Some z => Ok (_field_uvarint 1 17 ++ _field_uvarint 2 z)
    | None => Raise ValueError
    end.
Proof.
  intros Hno Htype Hval Hne. rewrite encode_without_epilogue by done.
  unfold encode_tx_body_fields, get. rewrite Htype, Hval.
  cbn [default from_option id str_eq String.eqb Ascii.eqb Bool.eqb truthy
       py_int].
  destruct s as [| c s']; [done |].
  by destruct (int_of_str (String c s')).
Qed.

(** X3.  A [writeDataTo] body encodes to field 1 = 6, field 2 = the
    recipient unless empty, and field 3 = the encoded entry unless that is
    empty; when the entry encoder of the SDK raises, so does the
    encoding. *)
Theorem write_data_to_encoding (body : pydict) (recipient : string) :
  truthy (get_none body "$epilogue") = false ->
  body !! "type" = Some (PStr "writeDataTo") ->
  get_none body "recipient" = PStr recipient ->
  _patched_encode_tx_body body
  = match _encode_data_entry (get body "entry" (PDict ∅)) with
    | Ok entry_bytes =>
        Ok (_field_uvarint 1 6
            ++ (if String.eqb recipient "" then []
                else _field_string 2 recipient)
            ++ (if nonempty entry_bytes then _field_bytes 3 entry_bytes
                else []))
    | Raise e => Raise e
    end.
Proof.
  intros Hno Htype Hr. rewrite encode_without_epilogue by done.
  unfold encode_tx_body_fields. rewrite Hr. unfold get at 1.
  rewrite Htype.
  cbn [default from_option id str_eq String.eqb Ascii.eqb Bool.eqb truthy].
  rewrite string_eqb_empty.
  destruct recipient as [| c r']; cbn [as_str bind];
    destruct (_encode_data_entry (get body "entry" (PDict ∅)))
      as [eb | e]; cbn [bind]; try done;
    destruct (nonempty eb); by rewrite ?app_nil_r, <- ?app_assoc.
Qed.

(** X4.  The first leaf of the body hash of a [writeDataTo] body is the
    digest of a prefix of its encoding: the encoded fields are the bytes
    hashed, type and recipient, followed by nothing but the entry
    field. *)
Theorem write_data_to_hash_prefix (body : pydict) (recipient : string)
    (entry_bytes entry_hash : bytes) :
  body !! "type" = Some (PStr "writeDataTo") ->
  get_none body "recipient" = PStr recipient ->
  _encode_data_entry (get body "entry" (PDict ∅)) = Ok entry_bytes ->
  _data_entry_hash (get body "entry" (PDict ∅)) = Ok entry_hash ->
  exists without_entry,
    encode_tx_body_fields body
    = Ok (without_entry
          ++ (if nonempty entry_bytes then _field_bytes 3 entry_bytes
              else []))
    /\ _patched_write_data_body_hash body
       = Ok (_merkle_hash [_sha256 without_entry; entry_hash]).
Proof.
  intros Htype Hr Hbytes Hhash.
  exists (_field_uvarint 1 6
          ++ (if String.eqb recipient "" then []
              else _field_string 2 recipient)).
  assert (get body "type" (PStr "") = PStr "writeDataTo") as Hget
    by (unfold get; by rewrite Htype).
  unfold encode_tx_body_fields, _patched_write_data_body_hash.
  rewrite Hr, Hbytes, Hhash, Hget.
  cbn [str_eq String.eqb Ascii.eqb Bool.eqb truthy negb].
  rewrite string_eqb_empty.
  destruct recipient as [| c r']; cbn [as_str bind];
    rewrite ?app_nil_r; split; try done;
    by destruct (nonempty entry_bytes); rewrite ?app_nil_r.
Qed.

(** X5.  An epilogue written with [bytes.hex] is read back as the same
    bytes and appended to the encoded fields. *)
Theorem epilogue_hex_round_trip (body : pydict) (fields e : bytes) :
  encode_tx_body_fields body = Ok fields ->
  e <> [] ->
  body !! "$epilogue" = Some (PStr (hex e)) ->
  _patched_encode_tx_body body = Ok (fields ++ e).
Proof.
  intros Hf Hne Hs.
  rewrite (encode_with_epilogue _ _ Hs) by by apply hex_nonempty.
  rewrite Hf. cbn [bind]. by rewrite fromhex_hex.
Qed.

(** X6.  An epilogue that is not a hexadecimal string makes the encoding
    raise [ValueError] although the fields of the body encode, and the
    signing entry point then ends on that exception with the body as it
    was, before any key is looked at. *)
Theorem malformed_epilogue_raises (now : Z) (kp : keypair)
    (principal : string) (body : pydict) (signer_url : string)
    (signer_version : Z) (memo : option string) (timestamp : option Z)
    (fields : bytes) (s : string) :
  encode_tx_body_fields body = Ok fields ->
  body !! "$epilogue" = Some (PStr s) ->
  s <> "" ->
  fromhex s = None ->
  _patched_encode_tx_body body = Raise ValueError
  /\ _patched_compute now kp principal body signer_url signer_version memo
       timestamp = (body, Raise ValueError).
Proof.
  intros Hf Hs Hne Hbad.
  assert (_patched_encode_tx_body body = Raise ValueError) as Henc.
  { rewrite (encode_with_epilogue _ _ Hs Hne), Hf. cbn [bind].
    by rewrite Hbad. }
  split; [exact Henc |]. unfold _patched_compute. by rewrite Henc.
Qed.

End BodyEncoder.

(** ** The guard *)

Section Guard.
Context `{Env}.

(** The body the entry point goes on with, for a trial encoding. *)
Lemma patched_compute_steps (now : Z) (kp : keypair) (principal : string)
    (body : pydict) (signer_url : string) (signer_version : Z)
    (memo : option string) (timestamp : option Z) (encoded : bytes) :
  _patched_encode_tx_body body = Ok encoded ->
  is_ed25519 kp = false ->
  _patched_compute now kp principal body signer_url signer_version memo
    timestamp
  = let handed :=
      if (length encoded =? 64)%nat then <["$epilogue" := PStr "00"]> body
      else body in
    (handed,
     _compute_non_ed25519 now kp principal handed signer_url signer_version
       memo timestamp).
Proof.
  intros Henc Hkp. unfold _patched_compute. by rewrite Henc, Hkp.
Qed.

Lemma encode_padded (body : pydict) (fields : bytes) :
  ignores_epilogue _original_encode_tx_body ->
  encode_tx_body_fields body = Ok fields ->
  _patched_encode_tx_body (<["$epilogue" := PStr "00"]> body)
  = Ok (fields ++ [x00]).
Proof.
  intros Horig Hf. unfold _patched_encode_tx_body.
  rewrite encode_tx_body_fields_epilogue, Hf by done.
  by rewrite get_none_insert_eq.
Qed.

(** X7.  For a body that carries no epilogue and encodes, the body the
    entry point signs never encodes to 64 bytes: it encodes, and to 65
    bytes when the body handed over encodes to 64, to the same bytes
    otherwise. *)
Theorem signed_body_never_64_bytes (now : Z) (kp : keypair)
    (principal : string) (body : pydict) (signer_url : string)
    (signer_version : Z) (memo : option string) (timestamp : option Z)
    (encoded : bytes) :
  ignores_epilogue _original_encode_tx_body ->
  truthy (get_none body "$epilogue") = false ->
  _patched_encode_tx_body body = Ok encoded ->
  exists handed encoded',
    _patched_compute now kp principal body signer_url signer_version memo
        timestamp
      = (if is_ed25519 kp
         then _original_compute kp principal handed signer_url signer_version
                memo timestamp
         else (handed,
               _compute_non_ed25519 now kp principal handed signer_url
                 signer_version memo timestamp))
    /\ _patched_encode_tx_body handed = Ok encoded'
    /\ length encoded' <> 64%nat.
Proof.
  intros Horig Hno Henc. unfold _patched_compute. rewrite Henc.
  destruct (Nat.eqb_spec (length encoded) 64) as [Hlen | Hlen].
  - exists (<["$epilogue" := PStr "00"]> body), (encoded ++ [x00]).
    split; [done |]. split.
    + apply encode_padded; [done |].
      by rewrite <- encode_without_epilogue.
    + rewrite length_app, Hlen. simpl. lia.
  - by exists body, encoded.
Qed.

(** X8.  Signing again the body a first call has left changes nothing
    more: for a body without epilogue and a keypair of the parameterised
    flow, the body left by a second call is the body left by the first. *)
Theorem padding_idempotent (now now' : Z) (kp : keypair) (principal : string)
    (body : pydict) (signer_url : string) (signer_version : Z)
    (memo : option string) (timestamp : option Z) :
  ignores_epilogue _original_encode_tx_body ->
  truthy (get_none body "$epilogue") = false ->
  is_ed25519 kp = false ->
  let first :=
    (_patched_compute now kp principal body signer_url signer_version memo
       timestamp).1 in
  (_patched_compute now' kp principal first signer_url signer_version memo
     timestamp).1 = first.
Proof.
  intros Horig Hno Hkp first. subst first.
  destruct (_patched_encode_tx_body body) as [encoded | e] eqn:Henc.
  - rewrite (patched_compute_steps now _ _ _ _ _ _ _ _ Henc Hkp).
    cbn [fst].
    destruct (Nat.eqb_spec (length encoded) 64) as [Hlen | Hlen].
    + assert (_patched_encode_tx_body (<["$epilogue" := PStr "00"]> body)
              = Ok (encoded ++ [x00])) as Hpad.
      { apply encode_padded; [done |].
        by rewrite <- encode_without_epilogue. }
      rewrite (patched_compute_steps now' _ _ _ _ _ _ _ _ Hpad Hkp).
      cbn [fst]. rewrite length_app, Hlen. reflexivity.
    + rewrite (patched_compute_steps now' _ _ _ _ _ _ _ _ Henc Hkp).
      cbn [fst]. by rewrite (proj2 (Nat.eqb_neq _ _) Hlen).
  - unfold _patched_compute at 2. rewrite Henc. cbn [fst].
    unfold _patched_compute. by rewrite Henc.
Qed.

(** X9.  An epilogue the caller has set is lost when the trial encoding,
    epilogue included, is 64 bytes long: the body signed has the epilogue
    "00" and encodes to the fields followed by one zero byte.  When the
    caller's epilogue was a single byte, these are 64 bytes again. *)
Theorem carried_epilogue_overwritten (now : Z) (kp : keypair)
    (principal : string) (body : pydict) (signer_url : string)
    (signer_version : Z) (memo : option string) (timestamp : option Z)
    (fields e : bytes) (s : string) :
  ignores_epilogue _original_encode_tx_body ->
  encode_tx_body_fields body = Ok fields ->
  body !! "$epilogue" = Some (PStr s) ->
  fromhex s = Some e ->
  e <> [] ->
  length (fields ++ e) = 64%nat ->
  let handed := <["$epilogue" := PStr "00"]> body in
  _patched_compute now kp principal body signer_url signer_version memo
      timestamp
    = (if is_ed25519 kp
       then _original_compute kp principal handed signer_url signer_version
              memo timestamp
       else (handed,
             _compute_non_ed25519 now kp principal handed signer_url
               signer_version memo timestamp))
  /\ _patched_encode_tx_body handed = Ok (fields ++ [x00])
  /\ (length e = 1%nat -> length (fields ++ [x00]) = 64%nat).
Proof.
  intros Horig Hf Hs He Hne Hlen handed.
  assert (s <> "") as Hs_ne by (intros ->; simpl in He; congruence).
  assert (_patched_encode_tx_body body = Ok (fields ++ e)) as Henc.
  { rewrite (encode_with_epilogue _ _ Hs Hs_ne), Hf. cbn [bind].
    by rewrite He. }
  split; [| split].
  - unfold _patched_compute. rewrite Henc, Hlen. reflexivity.
  - by apply encode_padded.
  - intros He1. rewrite length_app in *. simpl. lia.
Qed.

(** X10.  Whatever the parameterised flow returns through the entry
    point, the envelope holds one transaction, whose body is the very body
    the call leaves to the caller, padding included, and one signature,
    whose timestamp is the one returned. *)
Theorem envelope_carries_signed_body (now : Z) (kp : keypair)
    (principal : string) (body : pydict) (signer_url : string)
    (signer_version : Z) (memo : option string) (timestamp : option Z)
    (left : pydict) (env : envelope) (t : Z) :
  is_ed25519 kp = false ->
  _patched_compute now kp principal body signer_url signer_version memo
    timestamp = (left, Ok (env, t)) ->
  body_of <$> env_transaction env = [left]
  /\ sig_timestamp <$> env_signatures env = [t]
  /\ t = match timestamp with Some t' => t' | None => now end.
Proof.
  intros Hkp Hrun. unfold _patched_compute in Hrun.
  destruct (_patched_encode_tx_body body) as [encoded | e]; [| congruence].
  rewrite Hkp in Hrun. injection Hrun as <- Hflow.
  unfold _compute_non_ed25519 in Hflow.
  destruct kp as [k | k]; [discriminate |].
  repeat match type of Hflow with
         | bind ?m _ = Ok _ =>
             destruct m; cbn [bind] in Hflow; [| discriminate]
         end.
  by injection Hflow as <- <-.
Qed.

(** X11.  A failure of the signing capability is the failure of the flow:
    when header, body and body hash are there and [sign] raises, the flow
    raises the same exception and returns no envelope. *)
Theorem signing_failure_propagates (now : Z) (k : AlgoKeypair)
    (principal : string) (body : pydict) (signer_url : string)
    (signer_version : Z) (memo : option string) (timestamp : option Z)
    (header_bytes body_bytes body_hash : bytes) (e : exn) :
  let kp := Wrapped k in
  let t := match timestamp with Some t => t | None => now end in
  let initiator :=
    _sha256 (sig_metadata_binary (_acc_sig_type k) (public_key_bytes kp)
               signer_url signer_version t) in
  _encode_tx_header principal initiator memo = Ok header_bytes ->
  _patched_encode_tx_body body = Ok body_bytes ->
  (if is_data_write body then _patched_write_data_body_hash body
   else Ok (_sha256 body_bytes)) = Ok body_hash ->
  sign kp (_sha256 (initiator ++ _sha256 (_sha256 header_bytes ++ body_hash)))
    = Raise e ->
  _compute_non_ed25519 now kp principal body signer_url signer_version memo
    timestamp = Raise e.
Proof.
  intros kp t initiator HH HB Hh Hs. subst initiator t kp.
  unfold _compute_non_ed25519. cbv zeta.
  rewrite HH. cbn [bind]. rewrite HB. cbn [bind].
  unfold is_data_write in Hh. rewrite Hh. cbn [bind].
  by rewrite Hs.
Qed.

End Guard.

(** ** Key page operations and malformed entries *)

Section KeyPageOperations.
Context `{Env}.

(** X12.  The two threshold operations write their threshold as field 2
    whatever its value, zero included, and take 1 when the operation has
    no threshold; a threshold that is no integer makes the encoder
    raise. *)
Theorem threshold_operation_encoding (op : pydict) (tag : Z) :
  (op !! "type" = Some (PStr "setRejectThreshold") /\ tag = 6
   \/ op !! "type" = Some (PStr "setResponseThreshold") /\ tag = 7) ->
  (forall t, op !! "threshold" = Some (PInt t) ->
     _patched_encode_key_page_operation op
     = Ok (_field_uvarint 1 tag ++ _field_uvarint 2 t))
  /\ (op !! "threshold" = None ->
      _patched_encode_key_page_operation op
      = Ok (_field_uvarint 1 tag ++ _field_uvarint 2 1))
  /\ (forall s, op !! "threshold" = Some (PStr s) ->
      _patched_encode_key_page_operation op = Raise TypeError).
Proof.
  intros [[Htype ->] | [Htype ->]];
    (split; [| split]); intros;
    unfold _patched_encode_key_page_operation, get;
    rewrite Htype;
    repeat match goal with
           | Hop : op !! "threshold" = _ |- _ => rewrite Hop; clear Hop
           end;
    reflexivity.
Qed.

(** X13.  In the allow and deny lists of [updateAllowed] an integer stands
    for itself and is written unless it is zero; a list that is missing,
    [None] or empty adds nothing, so that an operation with neither list
    encodes to its type alone. *)
Theorem update_allowed_integers (op : pydict) (allow : list Z) :
  op !! "type" = Some (PStr "updateAllowed") ->
  truthy (get_none op "deny") = false ->
  (op !! "allow" = Some (PList (PInt <$> allow)) ->
   _patched_encode_key_page_operation op
   = Ok (_field_uvarint 1 5
         ++ concat ((fun v => if (v =? 0)%Z then [] else _field_uvarint 2 v)
                      <$> allow)))
  /\ (truthy (get_none op "allow") = false ->
      _patched_encode_key_page_operation op = Ok (_field_uvarint 1 5)).
Proof.
  intros Htype Hdeny.
  assert (get op "type" (PStr "") = PStr "updateAllowed") as Hget
    by (unfold get; by rewrite Htype).
  split.
  - intros Hallow. unfold _patched_encode_key_page_operation.
    rewrite Hget. unfold or_empty_list. rewrite Hdeny.
    unfold get_none at 1 2, get. rewrite Hallow.
    cbn [default from_option id str_eq String.eqb Ascii.eqb Bool.eqb].
    assert (py_iter (if truthy (PList (PInt <$> allow))
                     then PList (PInt <$> allow) else PList [])
            = Ok (PInt <$> allow)) as -> by by destruct allow.
    cbn [bind py_iter for_each].
    rewrite (for_each_append _ PInt
               (fun v => if (v =? 0)%Z then [] else _field_uvarint 2 v)).
    + cbn [bind]. reflexivity.
    + intros parts v. unfold encode_tx_type, tx_type_value.
      cbn [isinstance_int bind]. destruct (v =? 0)%Z;
        by rewrite ?app_nil_r.
  - intros Hallow. unfold _patched_encode_key_page_operation.
    rewrite Hget. unfold or_empty_list. rewrite Hdeny, Hallow.
    reflexivity.
Qed.

(** X14.  A list of operations or of recipients in which one item is not
    a dict makes the whole body fail to encode: no bytes are returned for
    the items before it. *)
Theorem malformed_item_raises (body : pydict) (items : list pyval)
    (bad : pyval) :
  bad ∈ items ->
  as_dict bad = Raise AttributeError ->
  (body !! "type" = Some (PStr "updateAccountAuth") ->
   body !! "operations" = Some (PList items) ->
   exists e, _patched_encode_tx_body body = Raise e)
  /\ (body !! "type" = Some (PStr "transferCredits") ->
      body !! "to" = Some (PList items) ->
      exists e, _patched_encode_tx_body body = Raise e).
Proof.
  intros Hin Hbad.
  assert (forall step : bytes -> pyval -> result bytes,
            (forall parts, step parts bad = Raise AttributeError) ->
            forall parts, exists e, for_each step items parts = Raise e)
    as Hloop.
  { intros step Hstep. induction items as [| x items IH]; intros parts.
    - by apply elem_of_nil in Hin.
    - cbn [for_each]. apply elem_of_cons in Hin as [<- | Hin].
      + rewrite Hstep. by eexists.
      + destruct (step parts x) as [parts' | e]; cbn [bind];
          [by apply IH | by eexists]. }
  split; intros Htype Hitems; unfold _patched_encode_tx_body,
    encode_tx_body_fields, get; rewrite Htype, Hitems;
    cbn [default from_option id str_eq String.eqb Ascii.eqb Bool.eqb py_iter
         bind].
  - destruct (Hloop encode_auth_operation) with (parts := _field_uvarint 1 21)
      as [e ->]; [| by eexists].
    intros parts. unfold encode_auth_operation,
      _encode_account_auth_operation. by rewrite Hbad.
  - destruct (Hloop encode_credit_recipient)
      with (parts := _field_uvarint 1 18) as [e ->]; [| by eexists].
    intros parts. unfold encode_credit_recipient. by rewrite Hbad.
Qed.

(** X15.  A body of a kind the patch does not encode itself is encoded by
    the SDK, and the epilogue is appended to what the SDK returns; what the
    SDK raises, the encoding raises. *)
Theorem delegated_body_encoding (body : pydict) (kind : string)
    (e : bytes) :
  body !! "type" = Some (PStr kind) ->
  kind ∉ ["writeDataTo"; "updateAccountAuth"; "lockAccount";
          "transferCredits"; "burnCredits"] ->
  (truthy (get_none body "$epilogue") = false ->
   _patched_encode_tx_body body = _original_encode_tx_body body)
  /\ (e <> [] -> body !! "$epilogue" = Some (PStr (hex e)) ->
      _patched_encode_tx_body body
      = do fields <- _original_encode_tx_body body; Ok (fields ++ e)).
Proof.
  intros Htype Hkind.
  assert (encode_tx_body_fields body = _original_encode_tx_body body)
    as Hfields.
  { unfold encode_tx_body_fields, get. rewrite Htype.
    cbn [default from_option id str_eq].
    repeat match goal with
           | |- context [String.eqb kind ?s] =>
               destruct (String.eqb_spec kind s) as [-> | _];
               [exfalso; apply Hkind; set_solver |]
           end.
    reflexivity. }
  split.
  - intros Hno. by rewrite encode_without_epilogue.
  - intros Hne Hs.
    rewrite (encode_with_epilogue _ _ Hs) by by apply hex_nonempty.
    rewrite Hfields, fromhex_hex. reflexivity.
Qed.

End KeyPageOperations.

(** * Properties of the callers *)

(** ** Network configuration *)

(** X16.  The endpoint is always one of the table: the one of the network
    named by the environment when the table has that name, the one of
    testnet otherwise, while the network name reported is the one of the
    environment even when the table does not have it. *)
Theorem network_endpoint_fallback (ACCUMULATE_NETWORK : option string) :
  let endpoint := Config.get_network_endpoint ACCUMULATE_NETWORK in
  let name := Config.get_network_name ACCUMULATE_NETWORK in
  (exists known, Config.NETWORK_ENDPOINTS !! known = Some endpoint)
  /\ (forall url, Config.NETWORK_ENDPOINTS !! name = Some url ->
        endpoint = url)
  /\ (Config.NETWORK_ENDPOINTS !! name = None ->
      endpoint = "https://testnet.accumulatenetwork.io"
      /\ name <> "testnet")
  /\ (ACCUMULATE_NETWORK = None ->
      name = "testnet"
      /\ endpoint = "https://testnet.accumulatenetwork.io").
Proof.
  intros endpoint name. subst endpoint name.
  unfold Config.get_network_endpoint, Config.get_network_name.
  set (network := Config.getenv ACCUMULATE_NETWORK "testnet").
  assert (Config.NETWORK_ENDPOINTS !!! "testnet"
          = "https://testnet.accumulatenetwork.io") as -> by reflexivity.
  split; [| split; [| split]].
  - destruct (Config.NETWORK_ENDPOINTS !! network) as [url |] eqn:Hn.
    + by exists network.
    + by exists "testnet".
  - by intros url ->.
  - intros Hnone. rewrite Hnone. split; [done |].
    intros Heq. by rewrite Heq in Hnone.
  - intros ->. by subst network.
Qed.

(** ** Query results *)

(** X17.  When a query result has a dict under [account], or else under
    [data], the result returned holds that dict under [_raw_nested], every
    field of that dict at the top level, where it hides a field of the
    same name, and every other field of the result as it was. *)
Theorem normalize_query_result_merge (d n : pydict) :
  py_or (get_none d "account") (get_none d "data") = PDict n ->
  exists merged,
    _normalize_query_result (PDict d) = PDict merged
    /\ merged !! "_raw_nested" = Some (PDict n)
    /\ (forall key v, key <> "_raw_nested" -> n !! key = Some v ->
          merged !! key = Some v)
    /\ (forall key, key <> "_raw_nested" -> n !! key = None ->
          merged !! key = d !! key).
Proof.
  intros Hnested. eexists. unfold _normalize_query_result.
  rewrite Hnested. split; [reflexivity |].
  split; [by rewrite lookup_insert_eq |]. split.
  - intros key v Hkey Hn. rewrite lookup_insert_ne by done.
    by apply lookup_union_Some_l.
  - intros key Hkey Hn. rewrite lookup_insert_ne by done.
    by apply lookup_union_r.
Qed.

(** X18.  Normalising a query result twice gives what normalising it once
    gives, provided the nested dict has no field [account] or [data] of
    its own. *)
Theorem normalize_query_result_idempotent (result : pyval) :
  (forall d n, result = PDict d ->
     py_or (get_none d "account") (get_none d "data") = PDict n ->
     n !! "account" = None /\ n !! "data" = None) ->
  _normalize_query_result (_normalize_query_result result)
  = _normalize_query_result result.
Proof.
  intros Hcond. destruct result as [| b | z | s | l | d]; try reflexivity.
  destruct (py_or (get_none d "account") (get_none d "data"))
    as [| b | z | s | l | n] eqn:Hnested;
    try (unfold _normalize_query_result at 2; rewrite Hnested;
         unfold _normalize_query_result; by rewrite Hnested).
  destruct (Hcond d n eq_refl Hnested) as [Hacc Hdata].
  unfold _normalize_query_result at 2. rewrite Hnested.
  set (merged := <["_raw_nested" := PDict n]> (n ∪ d)).
  assert (forall key, key <> "_raw_nested" -> n !! key = None ->
            get_none merged key = get_none d key) as Hget.
  { intros key Hkey Hn. unfold get_none, get, merged.
    rewrite lookup_insert_ne by done. by rewrite lookup_union_r. }
  unfold _normalize_query_result.
  rewrite !Hget, Hnested by done.
  f_equal. apply map_eq. intros key.
  destruct (decide (key = "_raw_nested")) as [-> | Hkey].
  - by rewrite !lookup_insert_eq.
  - unfold merged. rewrite !lookup_insert_ne by done.
    destruct (n !! key) as [v |] eqn:Hn.
    + by rewrite !(lookup_union_Some_l _ _ _ _ Hn).
    + rewrite (lookup_union_r n) by done.
      rewrite lookup_insert_ne by done. by rewrite lookup_union_r.
Qed.

(** ** The session store *)

(** X19.  What is stored last under an id is what the store holds, stores
    under different ids can be swapped, storing and then removing an id is
    removing it, which for an id the store did not have gives the store
    back, and removing twice is removing once. *)
Theorem session_store_composition (s s' : string) (k k' : AlgoKeypair)
    (_sessions : gmap string AlgoKeypair) :
  SessionStore.store s k' (SessionStore.store s k _sessions)
  = SessionStore.store s k' _sessions
  /\ (s <> s' ->
      SessionStore.store s k (SessionStore.store s' k' _sessions)
      = SessionStore.store s' k' (SessionStore.store s k _sessions))
  /\ SessionStore.remove s (SessionStore.store s k _sessions)
     = SessionStore.remove s _sessions
  /\ (SessionStore.get s _sessions = None ->
      SessionStore.remove s (SessionStore.store s k _sessions) = _sessions)
  /\ SessionStore.remove s (SessionStore.remove s _sessions)
     = SessionStore.remove s _sessions.
Proof.
  unfold SessionStore.store, SessionStore.remove, SessionStore.get,
    SessionStore.pop_default. cbn [snd].
  split; [by rewrite insert_insert_eq |].
  split; [intros Hne; by apply insert_insert_ne |].
  split; [by rewrite delete_insert_eq |].
  split; [intros Hnone; rewrite delete_insert_eq; by apply delete_id |].
  by rewrite delete_delete_eq.
Qed.

(** ** Lite URLs and key generation *)

Lemma string_length_app (a b : string) :
  String.length (a +:+ b) = (String.length a + String.length b)%nat.
Proof.
  induction a as [| c a IH]; [reflexivity |].
  change (String c a +:+ b) with (String c (a +:+ b)).
  cbn [String.length]. by rewrite IH.
Qed.

Lemma string_app_inj_length (a b c d : string) :
  a +:+ c = b +:+ d ->
  String.length c = String.length d ->
  a = b /\ c = d.
Proof.
  revert b. induction a as [| x a IH]; intros [| y b] Heq Hlen.
  - done.
  - exfalso. change ("" +:+ c) with c in Heq. rewrite Heq in Hlen.
    rewrite string_length_app in Hlen. cbn [String.length] in Hlen. lia.
  - exfalso. change ("" +:+ d) with d in Heq. rewrite <- Heq in Hlen.
    rewrite string_length_app in Hlen. cbn [String.length] in Hlen. lia.
  - change (String x (a +:+ c) = String y (b +:+ d)) in Heq.
    injection Heq as -> Heq. destruct (IH b Heq Hlen) as [-> ->]. done.
Qed.

Lemma hex_inj (a b : bytes) : hex a = hex b -> a = b.
Proof.
  intros Heq. apply (f_equal fromhex) in Heq.
  rewrite !fromhex_hex in Heq. congruence.
Qed.

Section LiteUrls.
Context `{Env}.

(** X20.  With a digest of 32 bytes, the lite identity of a key hash is
    "acc://", the key hash in hexadecimal and the last four bytes of the
    digest of that hexadecimal text, 14 characters more than twice the
    bytes of the key hash (54 for 20 bytes); the lite token account is the
    identity followed by "/ACME". *)
Theorem lite_urls_shape (key_hash : bytes) :
  (forall data, length (_sha256 data) = 32%nat) ->
  exists checksum,
    _derive_lite_urls key_hash
    = ("acc://" +:+ hex key_hash +:+ hex checksum,
       ("acc://" +:+ hex key_hash +:+ hex checksum) +:+ "/ACME")
    /\ length checksum = 4%nat
    /\ _sha256 (list_byte_of_string (hex key_hash))
       = take 28 (_sha256 (list_byte_of_string (hex key_hash))) ++ checksum
    /\ String.length (_derive_lite_urls key_hash).1
       = (14 + 2 * length key_hash)%nat.
Proof.
  intros Hdigest.
  exists (drop 28 (_sha256 (list_byte_of_string (hex key_hash)))).
  assert (length (drop 28 (_sha256 (list_byte_of_string (hex key_hash))))
          = 4%nat) as Hlen by (rewrite length_drop, Hdigest; lia).
  split; [reflexivity |]. split; [exact Hlen |].
  split; [by rewrite take_drop |].
  unfold _derive_lite_urls. cbn [fst].
  rewrite !string_length_app, !hex_length, Hlen. simpl. lia.
Qed.

(** X21.  With a digest of 32 bytes, two key hashes with the same lite
    identity are the same key hash. *)
Theorem lite_identity_injective (a b : bytes) :
  (forall data, length (_sha256 data) = 32%nat) ->
  (_derive_lite_urls a).1 = (_derive_lite_urls b).1 ->
  a = b.
Proof.
  intros Hdigest Heq. unfold _derive_lite_urls in Heq. cbn [fst] in Heq.
  apply (inj (String.append "acc://")) in Heq.
  apply string_app_inj_length in Heq as [Hhex _].
  - by apply hex_inj.
  - rewrite !hex_length, !length_drop, !Hdigest. reflexivity.
Qed.

End LiteUrls.

(** X22.  Generating keys for a name that, in lower case, is none of the
    four algorithms ends in a 400 and leaves the store as it was.  For one
    of the four, the keypair kept for the session wraps the generated key
    with the tag of the algorithm, one of 2, 3, 8 and 10, and is signed by
    the SDK's own implementation exactly when the algorithm is ed25519;
    nothing is kept when the request does not ask for it, and other
    sessions keep their keypairs. *)
Theorem generate_keys_session (generators : string -> result generated)
    (algorithm : string) (store_as_signer : bool) (session_id : string)
    (_sessions : gmap string AlgoKeypair) :
  let run :=
    generate_keys generators algorithm store_as_signer session_id
      _sessions in
  (_ALGORITHMS !! lower algorithm = None ->
   run = (HTTPException 400, _sessions))
  /\ (forall g, is_Some (_ALGORITHMS !! lower algorithm) ->
        generators (lower algorithm) = Ok g ->
        (store_as_signer = false -> run.2 = _sessions)
        /\ (store_as_signer = true ->
            exists wrapper,
              SessionStore.get session_id run.2 = Some wrapper
              /\ _inner wrapper = gen_kp g
              /\ _acc_sig_type wrapper ∈ [2; 3; 8; 10]
              /\ (is_ed25519 (Wrapped wrapper) = true
                  <-> lower algorithm = "ed25519")
              /\ forall other, other <> session_id ->
                   SessionStore.get other run.2
                   = SessionStore.get other _sessions)).
Proof.
  intros run. subst run. unfold generate_keys. split.
  - by intros ->.
  - intros g [[tag name] Halgo] Hgen. rewrite Halgo, Hgen.
    split; [by intros -> |]. intros ->. cbn [snd].
    eexists. split; [apply lookup_insert_eq |]. cbn.
    split; [done |].
    apply elem_of_list_to_map_2 in Halgo.
    repeat (apply elem_of_cons in Halgo as [Halgo | Halgo];
            [injection Halgo as -> -> ->;
             split; [set_solver |]; split; [done |];
             intros other Hother; unfold SessionStore.get,
               SessionStore.store; by rewrite lookup_insert_ne |]).
    by apply elem_of_nil in Halgo.
Qed.

(** ** Lite data accounts *)

Section LiteData.
Context `{Env}.

Lemma hash_hex_items (items : list bytes) :
  map_result (fun item_hex =>
                do item <- fromhex_or_raise item_hex;
                Ok (_sha256 item)) (hex <$> items)
  = Ok (_sha256 <$> items).
Proof.
  induction items as [| b items IH]; [reflexivity |].
  cbn [fmap list_fmap map_result]. unfold fromhex_or_raise at 1.
  rewrite fromhex_hex. cbn [bind]. rewrite IH. reflexivity.
Qed.

(** X23.  The lite data account of a list of items does not depend on the
    first item, which is not even read as hexadecimal; with one item or
    none it is the account of the empty digest input; and an item after
    the first that is not hexadecimal makes the computation raise
    [ValueError]. *)
Theorem lite_data_account_url_items (first first' : string)
    (rest : list string) :
  _compute_lite_data_account_url (first :: rest)
  = _compute_lite_data_account_url (first' :: rest)
  /\ _compute_lite_data_account_url [first]
     = Ok ("acc://" +:+ hex (take 32 (_sha256 [])))
  /\ _compute_lite_data_account_url []
     = Ok ("acc://" +:+ hex (take 32 (_sha256 [])))
  /\ (forall bad, bad ∈ rest -> fromhex bad = None ->
        _compute_lite_data_account_url (first :: rest) = Raise ValueError).
Proof.
  split; [reflexivity |]. split; [reflexivity |]. split; [reflexivity |].
  intros bad Hin Hbad. unfold _compute_lite_data_account_url.
  change (drop 1 (first :: rest)) with rest.
  assert (map_result (fun item_hex =>
                        do item <- fromhex_or_raise item_hex;
                        Ok (_sha256 item)) rest = Raise ValueError) as ->;
    [| reflexivity].
  induction rest as [| x rest IH]; [by apply elem_of_nil in Hin |].
  cbn [map_result]. unfold fromhex_or_raise at 1.
  destruct (fromhex x) as [b |] eqn:Hx; cbn [bind]; [| reflexivity].
  apply elem_of_cons in Hin as [-> | Hin]; [congruence |].
  by rewrite IH.
Qed.

(** X24.  When the request names no recipient, the route always finds
    one, and the body it builds carries it: the lite data account of the
    digests of the entries after the first.  With a single entry that is
    the account of the digest of the digest of the public key, whatever
    the entry; with no entry at all it is the account of the empty input,
    the same for every key. *)
Theorem write_data_to_auto_recipient (kp : keypair) (entries : list string) :
  let external_ids :=
    match entries with
    | [] => []
    | [_] => [_sha256 (public_key_bytes kp)]
    | _ :: rest => list_byte_of_string <$> rest
    end in
  let recipient :=
    "acc://"
    +:+ hex (take 32 (_sha256 (concat (_sha256 <$> external_ids)))) in
  exists body,
    write_data_to_body kp entries None = Ok (recipient, body)
    /\ body !! "type" = Some (PStr "writeDataTo")
    /\ body !! "recipient" = Some (PStr recipient).
Proof.
  intros external_ids recipient. eexists. unfold write_data_to_body.
  assert (_compute_lite_data_account_url
            (if (length ((fun e => hex (list_byte_of_string e)) <$> entries)
                 <? 2)%nat
             then ((fun e => hex (list_byte_of_string e)) <$> entries)
                  ++ [hex (_sha256 (public_key_bytes kp))]
             else (fun e => hex (list_byte_of_string e)) <$> entries)
          = Ok recipient) as ->.
  { unfold _compute_lite_data_account_url, recipient, external_ids.
    destruct entries as [| e1 [| e2 rest]].
    - reflexivity.
    - change (map_result _ _)
        with (map_result (fun item_hex =>
                            do item <- fromhex_or_raise item_hex;
                            Ok (_sha256 item))
                (hex <$> [_sha256 (public_key_bytes kp)])).
      by rewrite hash_hex_items.
    - change (map_result _ _)
        with (map_result (fun item_hex =>
                            do item <- fromhex_or_raise item_hex;
                            Ok (_sha256 item))
                ((fun e => hex (list_byte_of_string e)) <$> (e2 :: rest))).
      rewrite (list_fmap_compose list_byte_of_string hex).
      by rewrite hash_hex_items. }
  cbn [bind]. split; [reflexivity |].
  split; [by rewrite lookup_insert_eq |].
  rewrite lookup_insert_ne by done. by rewrite lookup_insert_eq.
Qed.

End LiteData.

(** ** Normalising a body *)

Lemma map_result_fmap {A B C} (f : B -> result C) (g : A -> B) (h : A -> C)
    (l : list A) :
  (forall x, f (g x) = Ok (h x)) ->
  map_result f (g <$> l) = Ok (h <$> l).
Proof.
  intros Hf. induction l as [| x l IH]; [reflexivity |].
  cbn [fmap list_fmap map_result]. rewrite Hf. cbn [bind].
  rewrite IH. reflexivity.
Qed.

Section NormaliseBody.
Context `{Env} `{Builtins}.

Lemma normalise_key_credit_oracle (body : pydict) :
  normalise_key true "oracle" body = body.
Proof.
  unfold normalise_key. destruct (body !! "oracle") as [v |]; [| done].
  by destruct (isinstance_int v).
Qed.

Lemma normalise_burn_credits (body : pydict) (a : Z) :
  body !! "type" = Some (PStr "burnCredits") ->
  body !! "amount" = Some (PInt a) ->
  body !! "to" = None ->
  _normalise_body body = Ok (<["amount" := PInt (a * 100)]> body).
Proof.
  intros Htype Hamount Hto. unfold _normalise_body, flat_to_array, get.
  rewrite Htype.
  cbn [default from_option id is_in existsb str_eq String.eqb Ascii.eqb
       Bool.eqb orb andb].
  rewrite normalise_key_credit_oracle.
  unfold normalise_key. rewrite Hamount.
  cbn [isinstance_int andb String.eqb Ascii.eqb Bool.eqb].
  rewrite lookup_insert_ne by done. by rewrite Hto.
Qed.

(** X25.  The amount of a [burnCredits] body, given in whole credits as an
    integer, is multiplied by 100 and nothing else of the body changes;
    encoded, the body then carries the amount in credit units. *)
Theorem burn_credits_precision (body : pydict) (a : Z) :
  body !! "type" = Some (PStr "burnCredits") ->
  body !! "amount" = Some (PInt a) ->
  body !! "to" = None ->
  truthy (get_none body "$epilogue") = false ->
  exists normalised,
    _normalise_body body = Ok normalised
    /\ normalised = <["amount" := PInt (a * 100)]> body
    /\ _patched_encode_tx_body normalised
       = Ok (_field_uvarint 1 17
             ++ (if (a =? 0)%Z then [] else _field_uvarint 2 (a * 100))).
Proof.
  intros Htype Hamount Hto Hno. eexists.
  split; [by apply normalise_burn_credits |]. split; [reflexivity |].
  rewrite encode_without_epilogue
    by by rewrite get_none_insert_ne.
  unfold encode_tx_body_fields, get.
  rewrite lookup_insert_ne, Htype, lookup_insert_eq by done.
  cbn [default from_option id str_eq String.eqb Ascii.eqb Bool.eqb truthy
       py_int].
  destruct (Z.eqb_spec a 0) as [-> | Hne].
  - cbn. by rewrite app_nil_r.
  - assert ((a * 100 =? 0)%Z = false) as -> by (apply Z.eqb_neq; lia).
    reflexivity.
Qed.

(** X26.  Normalising is not to be repeated: a [burnCredits] body
    normalised twice carries its amount multiplied by 10000. *)
Theorem normalise_body_not_idempotent (body : pydict) (a : Z) :
  body !! "type" = Some (PStr "burnCredits") ->
  body !! "amount" = Some (PInt a) ->
  body !! "to" = None ->
  exists once twice,
    _normalise_body body = Ok once
    /\ _normalise_body once = Ok twice
    /\ once !! "amount" = Some (PInt (a * 100))
    /\ twice !! "amount" = Some (PInt (a * 10000))
    /\ (a <> 0 -> twice <> once).
Proof.
  intros Htype Hamount Hto.
  exists (<["amount" := PInt (a * 100)]> body),
         (<["amount" := PInt (a * 100 * 100)]>
            (<["amount" := PInt (a * 100)]> body)).
  split; [by apply normalise_burn_credits |].
  split.
  { apply normalise_burn_credits.
    - by rewrite lookup_insert_ne.
    - by rewrite lookup_insert_eq.
    - by rewrite lookup_insert_ne. }
  split; [by rewrite lookup_insert_eq |].
  split.
  { rewrite lookup_insert_eq. do 2 f_equal. lia. }
  intros Hne Heq. apply (f_equal (lookup "amount")) in Heq.
  rewrite !lookup_insert_eq in Heq. injection Heq as Heq. lia.
Qed.

Lemma normalise_credit_recipient (r : string * Z) :
  normalise_entry true (credit_recipient r)
  = Ok (credit_recipient (r.1, r.2 * 100)).
Proof.
  destruct r as [url a]. unfold normalise_entry, credit_recipient.
  cbn [fst snd]. rewrite lookup_insert_ne, lookup_insert_eq by done.
  cbn [bind]. do 2 f_equal.
  all: rewrite insert_insert_ne by done; by rewrite insert_insert_eq.
Qed.

(** X27.  Every amount of the [to] array of a [transferCredits] body,
    given in whole credits as an integer, is multiplied by 100, in place
    and in order; encoded, the body then carries the recipients with
    their amounts in credit units. *)
Theorem transfer_credits_precision (body : pydict)
    (recipients : list (string * Z)) :
  writers_nonempty ->
  body !! "type" = Some (PStr "transferCredits") ->
  body !! "to" = Some (PList (credit_recipient <$> recipients)) ->
  body !! "amount" = None ->
  truthy (get_none body "$epilogue") = false ->
  let scaled := (fun r => (r.1, r.2 * 100)) <$> recipients in
  exists normalised,
    _normalise_body body = Ok normalised
    /\ normalised = <["to" := PList (credit_recipient <$> scaled)]> body
    /\ _patched_encode_tx_body normalised
       = Ok (_field_uvarint 1 18
             ++ concat (credit_recipient_entry <$> scaled)).
Proof.
  intros Hw Htype Hto Hamount Hno scaled. eexists. split; [| split].
  - unfold _normalise_body, flat_to_array, get. rewrite Htype, Hto.
    cbn [default from_option id is_in existsb str_eq String.eqb Ascii.eqb
         Bool.eqb orb andb].
    assert (bool_decide
              (is_Some (Some (PList (credit_recipient <$> recipients))))
            = true) as -> by by apply bool_decide_eq_true.
    rewrite andb_false_r. rewrite normalise_key_credit_oracle.
    unfold normalise_key. rewrite Hamount, Hto.
    rewrite (map_result_fmap _ _ (fun r => credit_recipient (r.1, r.2 * 100)))
      by apply normalise_credit_recipient.
    cbn [bind]. reflexivity.
  - subst scaled. by rewrite <- list_fmap_compose.
  - rewrite encode_without_epilogue by by rewrite get_none_insert_ne.
    unfold encode_tx_body_fields, get.
    rewrite lookup_insert_ne, Htype, lookup_insert_eq by done.
    cbn [default from_option id str_eq String.eqb Ascii.eqb Bool.eqb py_iter
         bind].
    subst scaled. rewrite <- list_fmap_compose.
    rewrite (for_each_append _
               (fun r : string * Z => credit_recipient (r.1, r.2 * 100))
               (fun r => credit_recipient_entry (r.1, r.2 * 100))).
    + reflexivity.
    + intros parts r. by apply encode_credit_recipient_typed.
Qed.

Lemma flat_to_array_flat (body : pydict) (recipient : string) (amt : pyval) :
  is_in (get body "type" (PStr ""))
    ["issueTokens"; "sendTokens"; "transferCredits"] = true ->
  body !! "recipient" = Some (PStr recipient) ->
  recipient <> "" ->
  body !! "amount" = Some amt ->
  body !! "to" = None ->
  flat_to_array body
  = <["to" := PList [PDict (<["url" := PStr recipient]>
                              (<["amount" := PStr (py_str amt)]> ∅))]]>
      (delete "recipient" (delete "amount" body)).
Proof.
  intros Htype Hr Hne Hamount Hto. unfold flat_to_array.
  rewrite Htype. unfold get_none, get.
  rewrite lookup_delete_ne, Hr, Hamount, Hto by done.
  destruct recipient as [| c r']; [done |].
  assert (bool_decide (is_Some (@None pyval)) = false) as ->
    by (apply bool_decide_eq_false; by intros [? ?]).
  reflexivity.
Qed.

(** X28.  A [sendTokens] body with a flat recipient and an integer amount
    and without [to] array gets a [to] array of one recipient, whose
    amount is the decimal text of the amount, and loses the two flat
    fields; when the body has a [to] array already, the flat fields stay
    where they are. *)
Theorem flat_recipient_to_array (body : pydict) (recipient : string)
    (a : Z) :
  body !! "type" = Some (PStr "sendTokens") ->
  body !! "recipient" = Some (PStr recipient) ->
  recipient <> "" ->
  body !! "amount" = Some (PInt a) ->
  body !! "oracle" = None ->
  (body !! "to" = None ->
   _normalise_body body
   = Ok (<["to" := PList [PDict (<["url" := PStr recipient]>
                             (<["amount" := PStr (string_of_Z a)]> ∅))]]>
           (delete "recipient" (delete "amount" body))))
  /\ (forall entries normalised,
        body !! "to" = Some (PList entries) ->
        _normalise_body body = Ok normalised ->
        normalised !! "recipient" = Some (PStr recipient)
        /\ normalised !! "amount" = Some (PStr (string_of_Z a))).
Proof.
  intros Htype Hr Hne Hamount Horacle.
  assert (get body "type" (PStr "") = PStr "sendTokens") as Hget
    by (unfold get; by rewrite Htype).
  split.
  - intros Hto. unfold _normalise_body.
    rewrite (flat_to_array_flat body recipient (PInt a))
      by (rewrite ?Hget; done).
    rewrite Hget.
    cbn [is_in existsb str_eq String.eqb Ascii.eqb Bool.eqb orb py_str].
    unfold normalise_key.
    rewrite lookup_insert_ne, lookup_delete_ne, lookup_delete_eq by done.
    rewrite lookup_insert_ne, !lookup_delete_ne, Horacle by done.
    rewrite lookup_insert_eq.
    cbn [map_result normalise_entry].
    rewrite lookup_insert_ne, lookup_insert_eq by done.
    cbn [isinstance_int bind]. by rewrite insert_insert_eq.
  - intros entries normalised Hto Hnorm.
    unfold _normalise_body, flat_to_array in Hnorm. rewrite Hget in Hnorm.
    rewrite Hto in Hnorm.
    assert (bool_decide (is_Some (Some (PList entries))) = true) as Hsome
      by by apply bool_decide_eq_true.
    rewrite Hsome, andb_false_r in Hnorm.
    cbn [is_in existsb str_eq String.eqb Ascii.eqb Bool.eqb orb] in Hnorm.
    unfold normalise_key in Hnorm. rewrite Hamount in Hnorm.
    cbn [isinstance_int andb negb] in Hnorm.
    rewrite lookup_insert_ne, Horacle, lookup_insert_ne, Hto in Hnorm
      by done.
    destruct (map_result (normalise_entry false) entries) as [l' | e];
      cbn [bind] in Hnorm; [| discriminate].
    injection Hnorm as <-.
    rewrite !lookup_insert_ne by done.
    by rewrite Hr, lookup_insert_eq.
Qed.

(** X29.  The amount of a flat [transferCredits] body does not stay an
    integer on its way: it is written as decimal text into the [to] array
    and from there converted through floating point, so that the array
    holds what [int(float(text) * 100)] gives, and the body is lost when
    that conversion raises. *)
Theorem flat_transfer_credits_units (body : pydict) (recipient : string)
    (a : Z) :
  body !! "type" = Some (PStr "transferCredits") ->
  body !! "recipient" = Some (PStr recipient) ->
  recipient <> "" ->
  body !! "amount" = Some (PInt a) ->
  body !! "to" = None ->
  _normalise_body body
  = match credit_units_of_str (string_of_Z a) with
    | Ok units =>
        Ok (<["to" := PList [credit_recipient (recipient, units)]]>
              (delete "recipient" (delete "amount" body)))
    | Raise e => Raise e
    end.
Proof.
  intros Htype Hr Hne Hamount Hto.
  assert (get body "type" (PStr "") = PStr "transferCredits") as Hget
    by (unfold get; by rewrite Htype).
  unfold _normalise_body.
  rewrite (flat_to_array_flat body recipient (PInt a))
    by (rewrite ?Hget; done).
  rewrite Hget.
  cbn [is_in existsb str_eq String.eqb Ascii.eqb Bool.eqb orb py_str].
  rewrite normalise_key_credit_oracle.
  unfold normalise_key.
  rewrite lookup_insert_ne, lookup_delete_ne, lookup_delete_eq by done.
  rewrite lookup_insert_eq.
  cbn [map_result normalise_entry].
  rewrite lookup_insert_ne, lookup_insert_eq by done.
  destruct (credit_units_of_str (string_of_Z a)) as [units | e];
    cbn [bind]; [| reflexivity].
  rewrite insert_insert_eq. unfold credit_recipient. cbn [fst snd].
  by rewrite insert_insert_ne, insert_insert_eq by done.
Qed.

End NormaliseBody.

(** * The further properties on the instance *)

Lemma scalar_body_encoding_witness :
  @_patched_encode_tx_body Reference.env (Samples.burn (PInt 17))
  = Ok (Reference.field_uvarint 1 17 ++ Reference.field_uvarint 2 17).
Proof.
  destruct (@scalar_body_encoding Reference.env (Samples.burn (PInt 17)) 17
              eq_refl) as [Hburn _].
  exact (Hburn eq_refl eq_refl).
Defined.

Lemma string_amount_encoding_witness :
  @_patched_encode_tx_body Reference.env (Samples.burn (PStr "abc"))
  = Raise ValueError.
Proof.
  apply (@string_amount_encoding Reference.env (Samples.burn (PStr "abc"))
           "abc"); done.
Defined.

Lemma write_data_to_encoding_witness :
  @_patched_encode_tx_body Reference.env Samples.write_data_to
  = Ok (Reference.field_uvarint 1 6
        ++ Reference.field_string 2 "acc://data" ++ []).
Proof.
  apply (@write_data_to_encoding Reference.env Samples.write_data_to
           "acc://data"); reflexivity.
Defined.

Lemma write_data_to_hash_prefix_witness :
  exists without_entry,
    @encode_tx_body_fields Reference.env Samples.write_data_to
    = Ok (without_entry ++ [])
    /\ @_patched_write_data_body_hash Reference.env Samples.write_data_to
       = Ok (Reference.digest
               (concat [Reference.digest without_entry;
                        Reference.digest []])).
Proof.
  apply (@write_data_to_hash_prefix Reference.env Samples.write_data_to
           "acc://data" [] (Reference.digest [])); reflexivity.
Defined.

Lemma epilogue_hex_round_trip_witness :
  exists fields,
    @_patched_encode_tx_body Reference.env
      (<["$epilogue" := PStr (hex [xab; xcd])]> Reference.body64)
    = Ok (fields ++ [xab; xcd]).
Proof.
  eexists.
  apply (@epilogue_hex_round_trip Reference.env
           (<["$epilogue" := PStr (hex [xab; xcd])]> Reference.body64)).
  - vm_compute. reflexivity.
  - done.
  - reflexivity.
Defined.

Lemma malformed_epilogue_raises_witness :
  @_patched_compute Reference.env 0 Reference.rcd1_keypair "acc://p"
    (<["$epilogue" := PStr "0g"]> Reference.body64) "acc://s" 1 None None
  = (<["$epilogue" := PStr "0g"]> Reference.body64, Raise ValueError).
Proof.
  edestruct (@malformed_epilogue_raises Reference.env 0
               Reference.rcd1_keypair "acc://p"
               (<["$epilogue" := PStr "0g"]> Reference.body64) "acc://s" 1
               None None) with (s := "0g") as (_ & Hrun).
  - vm_compute. reflexivity.
  - reflexivity.
  - done.
  - reflexivity.
  - exact Hrun.
Defined.

Lemma signed_body_never_64_bytes_witness :
  exists handed encoded',
    @_patched_encode_tx_body Reference.env handed = Ok encoded'
    /\ length encoded' <> 64%nat.
Proof.
  edestruct (@signed_body_never_64_bytes Reference.env 0
               Reference.rcd1_keypair "acc://p" Reference.body64 "acc://s" 1
               None None)
    as (handed & encoded' & _ & Henc & Hlen).
  - by intros ? ?.
  - reflexivity.
  - vm_compute. reflexivity.
  - by exists handed, encoded'.
Defined.

Lemma padding_idempotent_witness :
  let first :=
    (@_patched_compute Reference.env 0 Reference.rcd1_keypair "acc://p"
       Reference.body64 "acc://s" 1 None None).1 in
  (@_patched_compute Reference.env 9 Reference.rcd1_keypair "acc://p" first
     "acc://s" 1 None None).1 = first.
Proof.
  apply (@padding_idempotent Reference.env 0 9 Reference.rcd1_keypair
           "acc://p" Reference.body64 "acc://s" 1 None None).
  - by intros ? ?.
  - reflexivity.
  - reflexivity.
Defined.

Lemma carried_epilogue_overwritten_witness :
  exists fields,
    @_patched_encode_tx_body Reference.env
      (<["$epilogue" := PStr "00"]> Samples.body63_ff)
    = Ok (fields ++ [x00])
    /\ length (fields ++ [x00]) = 64%nat.
Proof.
  eexists.
  edestruct (@carried_epilogue_overwritten Reference.env 0
               Reference.rcd1_keypair "acc://p" Samples.body63_ff "acc://s"
               1 None None) with (e := [xff]) (s := "ff")
    as (_ & Henc & Hlen).
  - by intros ? ?.
  - vm_compute. reflexivity.
  - reflexivity.
  - reflexivity.
  - done.
  - reflexivity.
  - split; [exact Henc | by apply Hlen].
Defined.

Lemma envelope_carries_signed_body_witness :
  exists left env t,
    @_patched_compute Reference.env 7 Reference.rcd1_keypair "acc://p"
      Reference.body64 "acc://s" 1 None None = (left, Ok (env, t))
    /\ body_of <$> env_transaction env = [left]
    /\ left !! "$epilogue" = Some (PStr "00").
Proof.
  assert (exists left env t,
            @_patched_compute Reference.env 7 Reference.rcd1_keypair
              "acc://p" Reference.body64 "acc://s" 1 None None
            = (left, Ok (env, t))
            /\ left !! "$epilogue" = Some (PStr "00"))
    as (left & env & t & Hrun & Hleft).
  { do 3 eexists. split; vm_compute; reflexivity. }
  exists left, env, t. split; [exact Hrun |]. split; [| exact Hleft].
  by apply (@envelope_carries_signed_body Reference.env 7
              Reference.rcd1_keypair "acc://p" Reference.body64 "acc://s" 1
              None None left env t eq_refl Hrun).
Defined.

Lemma signing_failure_propagates_witness :
  @_compute_non_ed25519 Reference.env 7 (Wrapped Samples.failing_rcd1)
    "acc://p" Reference.body64 "acc://s" 1 None None = Raise SdkError.
Proof.
  eapply (@signing_failure_propagates Reference.env 7 Samples.failing_rcd1
            "acc://p" Reference.body64 "acc://s" 1 None None).
  - vm_compute. reflexivity.
  - vm_compute. reflexivity.
  - vm_compute. reflexivity.
  - reflexivity.
Defined.

Lemma threshold_operation_encoding_witness :
  @_patched_encode_key_page_operation Reference.env
    (Reference.dict [("type", PStr "setRejectThreshold");
                     ("threshold", PInt 0)])
  = Ok (Reference.field_uvarint 1 6 ++ Reference.field_uvarint 2 0).
Proof.
  edestruct (@threshold_operation_encoding Reference.env
               (Reference.dict [("type", PStr "setRejectThreshold");
                                ("threshold", PInt 0)]) 6)
    as (Hint & _ & _).
  - left. split; reflexivity.
  - by apply Hint.
Defined.

Lemma update_allowed_integers_witness :
  @_patched_encode_key_page_operation Reference.env
    (Reference.dict [("type", PStr "updateAllowed");
                     ("allow", PList (PInt <$> [5; 0; 3]))])
  = Ok (Reference.field_uvarint 1 5
        ++ Reference.field_uvarint 2 5 ++ Reference.field_uvarint 2 3).
Proof.
  edestruct (@update_allowed_integers Reference.env
               (Reference.dict [("type", PStr "updateAllowed");
                                ("allow", PList (PInt <$> [5; 0; 3]))])
               [5; 0; 3]) as (Hallow & _).
  - reflexivity.
  - reflexivity.
  - rewrite Hallow by reflexivity. vm_compute. reflexivity.
Defined.

Lemma malformed_item_raises_witness :
  exists e,
    @_patched_encode_tx_body Reference.env
      (Reference.dict
         [("type", PStr "updateAccountAuth");
          ("operations", PList [auth_operation ("add", "acc://x/book");
                                PStr "enable"])])
    = Raise e.
Proof.
  edestruct (@malformed_item_raises Reference.env
               (Reference.dict
                  [("type", PStr "updateAccountAuth");
                   ("operations",
                    PList [auth_operation ("add", "acc://x/book");
                           PStr "enable"])])
               [auth_operation ("add", "acc://x/book"); PStr "enable"]
               (PStr "enable")) as (Hops & _).
  - rewrite !elem_of_cons. right. by left.
  - reflexivity.
  - by apply Hops.
Defined.

Lemma delegated_body_encoding_witness :
  @_patched_encode_tx_body Reference.env
    (Reference.dict [("type", PStr "sendTokens")])
  = Raise SdkError.
Proof.
  edestruct (@delegated_body_encoding Reference.env
               (Reference.dict [("type", PStr "sendTokens")]) "sendTokens"
               []) as (Hplain & _).
  - reflexivity.
  - intros Hin.
    repeat (apply elem_of_cons in Hin as [Hin | Hin]; [discriminate |]).
    by apply elem_of_nil in Hin.
  - by rewrite Hplain.
Defined.

Lemma normalize_query_result_merge_witness :
  exists merged,
    _normalize_query_result Samples.query_result = PDict merged
    /\ merged !! "url" = Some (PStr "acc://inner")
    /\ merged !! "status" = Some (PStr "ok").
Proof.
  edestruct (normalize_query_result_merge
               (Reference.dict
                  [("status", PStr "ok"); ("url", PStr "acc://outer");
                   ("account", PDict (Reference.dict
                                        [("url", PStr "acc://inner");
                                         ("balance", PStr "5")]))])
               (Reference.dict [("url", PStr "acc://inner");
                                ("balance", PStr "5")]))
    as (merged & Hrun & _ & Hin & Hout).
  - reflexivity.
  - exists merged. split; [exact Hrun |]. split.
    + by apply Hin.
    + by rewrite Hout.
Defined.

Lemma normalize_query_result_idempotent_witness :
  _normalize_query_result (_normalize_query_result Samples.query_result)
  = _normalize_query_result Samples.query_result.
Proof.
  apply normalize_query_result_idempotent.
  intros d n Hd Hn. injection Hd as <-. vm_compute in Hn.
  injection Hn as <-. split; reflexivity.
Defined.

Lemma reference_digest_length (data : bytes) :
  length (Reference.digest data) = 32%nat.
Proof.
  unfold Reference.digest. rewrite length_take, length_app, length_replicate.
  lia.
Qed.

Lemma lite_urls_shape_witness :
  String.length
    (@_derive_lite_urls Reference.env (replicate 20 x07)).1 = 54%nat.
Proof.
  destruct (@lite_urls_shape Reference.env (replicate 20 x07)
              reference_digest_length) as (checksum & _ & _ & _ & Hlen).
  exact Hlen.
Defined.

Lemma lite_identity_injective_witness :
  replicate 20 x07 = replicate 20 x07.
Proof.
  apply (@lite_identity_injective Reference.env).
  - exact reference_digest_length.
  - reflexivity.
Defined.

Lemma burn_credits_precision_witness :
  exists normalised,
    @_normalise_body reference_builtins (Samples.burn (PInt 3))
    = Ok normalised
    /\ @_patched_encode_tx_body Reference.env normalised
       = Ok (Reference.field_uvarint 1 17 ++ Reference.field_uvarint 2 300).
Proof.
  edestruct (@burn_credits_precision Reference.env reference_builtins
               (Samples.burn (PInt 3)) 3)
    as (normalised & Hnorm & _ & Henc); try reflexivity.
  exists normalised. split; [exact Hnorm | exact Henc].
Defined.

Lemma normalise_body_not_idempotent_witness :
  exists once twice,
    @_normalise_body reference_builtins (Samples.burn (PInt 3)) = Ok once
    /\ @_normalise_body reference_builtins once = Ok twice
    /\ twice !! "amount" = Some (PInt 30000).
Proof.
  edestruct (@normalise_body_not_idempotent reference_builtins
               (Samples.burn (PInt 3)) 3)
    as (once & twice & H1 & H2 & _ & Hamount & _); try reflexivity.
  by exists once, twice.
Defined.

Lemma transfer_credits_precision_witness :
  exists normalised,
    @_normalise_body reference_builtins
      (Reference.dict
         [("type", PStr "transferCredits");
          ("to", PList (credit_recipient <$> [("acc://a", 5)]))])
    = Ok normalised
    /\ @_patched_encode_tx_body Reference.env normalised
       = Ok (Reference.field_uvarint 1 18
             ++ concat (@credit_recipient_entry Reference.env
                          <$> [("acc://a", 500)])).
Proof.
  edestruct (@transfer_credits_precision Reference.env reference_builtins
               (Reference.dict
                  [("type", PStr "transferCredits");
                   ("to", PList (credit_recipient <$> [("acc://a", 5)]))])
               [("acc://a", 5)])
    as (normalised & Hnorm & _ & Henc);
    [exact reference_writers_nonempty | reflexivity .. |].
  exists normalised. split; [exact Hnorm | exact Henc].
Defined.

Lemma flat_recipient_to_array_witness :
  @_normalise_body reference_builtins
    (Reference.dict [("type", PStr "sendTokens");
                     ("recipient", PStr "acc://bob/tokens");
                     ("amount", PInt 12)])
  = Ok (Reference.dict
          [("type", PStr "sendTokens");
           ("to", PList [PDict (Reference.dict
                                  [("url", PStr "acc://bob/tokens");
                                   ("amount", PStr "12")])])]).
Proof.
  edestruct (@flat_recipient_to_array reference_builtins
               (Reference.dict [("type", PStr "sendTokens");
                                ("recipient", PStr "acc://bob/tokens");
                                ("amount", PInt 12)])
               "acc://bob/tokens" 12) as (Hflat & _);
    [reflexivity | reflexivity | done | reflexivity | reflexivity |].
  rewrite Hflat by reflexivity. reflexivity.
Defined.

Lemma flat_transfer_credits_units_witness :
  @_normalise_body reference_builtins
    (Reference.dict [("type", PStr "transferCredits");
                     ("recipient", PStr "acc://bob/page");
                     ("amount", PInt 3)])
  = Raise ValueError.
Proof.
  rewrite (@flat_transfer_credits_units reference_builtins
             (Reference.dict [("type", PStr "transferCredits");
                              ("recipient", PStr "acc://bob/page");
                              ("amount", PInt 3)])
             "acc://bob/page" 3); done.
Defined.

(** ** The URLs of a generated ed25519 key *)

Section GeneratedKey.
Context `{Env}.

(** X30.  With a digest of 32 bytes, a request for ed25519 keys, in any
    case of letters, is answered with the public key and its digest in
    hexadecimal, a lite identity of 54 characters and, as lite token
    account, that identity followed by "/ACME". *)
Theorem generate_ed25519_response (generators : string -> result generated)
    (kp : SdkKeyPair) (algorithm : string) (store_as_signer : bool)
    (session_id : string) (_sessions : gmap string AlgoKeypair) :
  (forall data, length (_sha256 data) = 32%nat) ->
  lower algorithm = "ed25519" ->
  generators "ed25519" = Ok (_generate_ed25519 kp) ->
  exists response,
    (generate_keys generators algorithm store_as_signer session_id
       _sessions).1 = Response response
    /\ resp_algorithm response = "ed25519"
    /\ resp_public_key response = hex (key_public_key_bytes kp)
    /\ resp_public_key_hash response
       = hex (_sha256 (key_public_key_bytes kp))
    /\ String.length (resp_lite_identity response) = 54%nat
    /\ resp_lite_token_account response
       = resp_lite_identity response +:+ "/ACME".
Proof.
  intros Hdigest Hlower Hgen. unfold generate_keys. rewrite Hlower.
  assert (_ALGORITHMS !! "ed25519" = Some (2, "ed25519")) as ->
    by reflexivity.
  rewrite Hgen. eexists. split; [reflexivity |].
  unfold _generate_ed25519, _derive_lite_urls.
  cbn [resp_algorithm resp_public_key resp_public_key_hash
       resp_lite_identity resp_lite_token_account gen_pub_bytes
       gen_pub_key_hash_hex gen_lite_identity gen_lite_token_account].
  repeat split.
  rewrite !string_length_app, !hex_length, length_drop, length_take,
    !Hdigest.
  reflexivity.
Qed.

End GeneratedKey.

Lemma generate_ed25519_response_witness :
  exists response,
    (generate_keys
       (fun _ => Ok (@_generate_ed25519 Reference.env Reference.echo_key))
       "Ed25519" true "tab-1" ∅).1 = Response response
    /\ String.length (resp_lite_identity response) = 54%nat.
Proof.
  edestruct (@generate_ed25519_response Reference.env
               (fun _ => Ok (@_generate_ed25519 Reference.env
                               Reference.echo_key))
               Reference.echo_key "Ed25519" true "tab-1" ∅)
    as (response & Hrun & _ & _ & _ & Hlen & _).
  - exact reference_digest_length.
  - reflexivity.
  - reflexivity.
  - by exists response.
Defined.
